(** * AI Image Caption Generator: the retry wrapper, the vision service and
      the caption router, embedded in Rocq

    Sources embedded here:
    - [src/types/index.ts]            (the response envelope, the MIME allow-list)
    - [src/services/vision.service.ts] (withRetry, generateCaption,
                                        generateCaptionWithPrompt)
    - [src/routes/caption.route.ts]    (fileFilter, validateFile, the two POST
                                        handlers, the health handler, the error
                                        middleware)

    Strings are Stdlib strings holding the UTF-8 bytes of the text.  The
    asynchronous code is written in a small state-and-exception monad over a
    world that holds the state of the remote API and the trace of observable
    actions (invocations of the retried operation, timer waits, console
    output). *)

From Stdlib Require Import String Ascii List ZArith NArith Arith Bool Lia.
From Stdlib Require Strings.Byte QArith.QArith_base.
From Stdlib Require Import DecimalString.
Import ListNotations.

Local Open Scope string_scope.

(** ** JavaScript string primitives used by the sources *)

Module JsString.

(** [bytes l] is the string whose bytes are the numbers of [l]. *)
Definition bytes (l : list nat) : string :=
  string_of_list_ascii (map ascii_of_nat l).

(** [s.startsWith(pat)] *)
Definition startsWith (s pat : string) : bool := String.prefix pat s.

(** [s.includes(pat)]: [pat] occurs somewhere in [s]. *)
Fixpoint includes (s pat : string) : bool :=
  startsWith s pat ||
  match s with
  | EmptyString => false
  | String _ s' => includes s' pat
  end.

(** [s.toLowerCase()] on the letters A-Z.  Bytes outside ASCII are left as
    they are: the lower-case forms of non-ASCII letters are non-ASCII as
    well, apart from U+0130 and U+212A, which yield an [i] followed by
    U+0307 and a [k]; neither can take part in an occurrence of the ASCII
    text the sources search for. *)
Definition lowerChar (c : ascii) : ascii :=
  let n := nat_of_ascii c in
  if ((65 <=? n)%nat && (n <=? 90)%nat)%bool then ascii_of_nat (n + 32) else c.

Fixpoint toLowerCase (s : string) : string :=
  match s with
  | EmptyString => EmptyString
  | String c s' => String (lowerChar c) (toLowerCase s')
  end.

(** The white space and line terminators of ECMAScript, in UTF-8:
    TAB LF VT FF CR SP, U+00A0, U+1680, U+2000..U+200A, U+2028, U+2029,
    U+202F, U+205F, U+3000, U+FEFF. *)
Definition whiteSpace : list string :=
  map bytes
    [ [9]; [10]; [11]; [12]; [13]; [32];
      [194; 160];
      [225; 154; 128];
      [226; 128; 128]; [226; 128; 129]; [226; 128; 130]; [226; 128; 131];
      [226; 128; 132]; [226; 128; 133]; [226; 128; 134]; [226; 128; 135];
      [226; 128; 136]; [226; 128; 137]; [226; 128; 138];
      [226; 128; 168]; [226; 128; 169]; [226; 128; 175];
      [226; 129; 159];
      [227; 128; 128];
      [239; 187; 191] ].

Definition isToken (toks : list string) (t : string) : bool :=
  existsb (String.eqb t) toks.

(** Remove every leading token of [toks] (tokens are 1 to 3 bytes long). *)
Fixpoint stripLeading (toks : list string) (s : string) : string :=
  match s with
  | EmptyString => s
  | String c1 s1 =>
      if isToken toks (String c1 "") then stripLeading toks s1
      else
        match s1 with
        | EmptyString => s
        | String c2 s2 =>
            if isToken toks (String c1 (String c2 "")) then stripLeading toks s2
            else
              match s2 with
              | EmptyString => s
              | String c3 s3 =>
                  if isToken toks (String c1 (String c2 (String c3 "")))
                  then stripLeading toks s3
                  else s
              end
        end
  end.

Definition reverse (s : string) : string :=
  string_of_list_ascii (rev (list_ascii_of_string s)).

Definition trimStart (s : string) : string := stripLeading whiteSpace s.

Definition trimEnd (s : string) : string :=
  reverse (stripLeading (map reverse whiteSpace) (reverse s)).

(** [s.trim()] *)
Definition trim (s : string) : string := trimEnd (trimStart s).

(** Decimal rendering of a number inside a template literal (numbers
    below 1e21, which JavaScript prints in full). *)
Definition ofZ (z : Z) : string := NilZero.string_of_int (Z.to_int z).

(** [arr.join(sep)] *)
Definition join (sep : string) (l : list string) : string := String.concat sep l.

End JsString.

Import JsString.

(** ** src/types/index.ts *)

Module Types.

(** [interface CaptionResponse]; an absent optional field is [None] and is
    left out of the JSON text. *)
Record CaptionResponse := mkCaptionResponse {
  success : bool;
  caption : option string;
  error : option string;
  timestamp : string
}.

Record AzureOpenAIConfig := mkConfig {
  apiKey : string;
  endpoint : string;
  modelId : string
}.

Definition SUPPORTED_IMAGE_TYPES : list string :=
  ["image/jpeg"; "image/png"; "image/gif"; "image/webp"].

(** [interface ValidationResult] *)
Record ValidationResult := mkValidation {
  isValid : bool;
  validationError : option string
}.

(** [type MessageContent = ImageUrlContent | TextContent] *)
Inductive MessageContent :=
| TextContent (text : string)
| ImageUrlContent (url : string) (detail : string).

End Types.

Import Types.

(** ** JavaScript values that are thrown and caught *)

(** The classes of [Error] objects the sources meet: a plain [Error], multer's
    [MulterError] with its [code], and the API client's error, which carries
    the HTTP status of the failed response. *)
Inductive ErrorClass :=
| PlainError
| MulterError (code : string)
| APIError (status : Z).

Record JsError := mkError {
  errorClass : ErrorClass;
  message : string
}.

(** [new Error(msg)] *)
Definition newError (msg : string) : JsError := mkError PlainError msg.

(** A thrown value is an [Error] object or some other value, of which only
    [String(value)] is ever used. *)
Inductive Thrown :=
| ThrownError (e : JsError)
| ThrownValue (repr : string).

(** [error instanceof Error ? error : new Error(String(error))] *)
Definition toError (t : Thrown) : JsError :=
  match t with
  | ThrownError e => e
  | ThrownValue repr => newError repr
  end.

Inductive Result (A : Type) :=
| Returned (a : A)
| Threw (t : Thrown).
Arguments Returned {A} a.
Arguments Threw {A} t.

(** ** The chat-completions call of the API client *)

(** [new AzureOpenAI({ apiKey, endpoint, apiVersion })] *)
Record AzureOpenAI := mkClient {
  clientApiKey : string;
  clientEndpoint : string;
  apiVersion : string
}.

Record ChatMessageParam := mkParam {
  role : string;
  paramContent : list MessageContent
}.

Record ChatRequest := mkChatRequest {
  model : string;
  messages : list ChatMessageParam;
  max_tokens : Z;
  temperature : QArith_base.Q
}.

(** [response.choices[0]?.message?.content] reads through three optional
    layers. *)
Record ChatMessage := mkChatMessage { content : option string }.
Record Choice := mkChoice { choiceMessage : option ChatMessage }.
Record ChatCompletion := mkChatCompletion { choices : list Choice }.

(** ** Observable actions and the world they happen in *)

Inductive Event :=
| EvInvoke                              (* the retried operation is called *)
| EvSleep (ms : Z)                      (* sleep(ms) *)
| EvLog (line : string)                 (* console.log *)
| EvWarn (line : string)                (* console.warn *)
| EvConsoleError (label : string) (what : Thrown).  (* console.error *)

(** What lies outside the program: the state of the remote service, how it
    evolves while the program waits, and what a chat-completions call does. *)
Class Runtime := {
  Env : Type;
  elapse : Z -> Env -> Env;
  chatCompletionsCreate : AzureOpenAI -> ChatRequest -> Env -> Result ChatCompletion * Env
}.

Section Effects.
Context {RT : Runtime}.

Record World := mkWorld { env : Env; trace : list Event }.

(** Asynchronous code: a world transformer that returns or throws. *)
Definition M (A : Type) : Type := World -> Result A * World.

Definition ret {A} (a : A) : M A := fun w => (Returned a, w).

Definition throw {A} (t : Thrown) : M A := fun w => (Threw t, w).

Definition bind {A B} (m : M A) (k : A -> M B) : M B :=
  fun w =>
    match m w with
    | (Returned a, w') => k a w'
    | (Threw t, w') => (Threw t, w')
    end.

(** [try { m } catch (error) { handler }], also [promise.catch(handler)] *)
Definition tryCatch {A} (m : M A) (handler : Thrown -> M A) : M A :=
  fun w =>
    match m w with
    | (Returned a, w') => (Returned a, w')
    | (Threw t, w') => handler t w'
    end.

Definition emit (e : Event) : M unit :=
  fun w => (Returned tt, mkWorld (env w) (trace w ++ [e])).

(** [await sleep(ms)] *)
Definition sleep (ms : Z) : M unit :=
  fun w => (Returned tt, mkWorld (elapse ms (env w)) (trace w ++ [EvSleep ms])).

Definition consoleLog (line : string) : M unit := emit (EvLog line).

Definition consoleError (label : string) (what : Thrown) : M unit :=
  emit (EvConsoleError label what).

(** An operation handed to the retry wrapper acts on the remote state only. *)
Definition Operation (T : Type) : Type := Env -> Result T * Env.

(** [await operation()] *)
Definition invoke {T} (operation : Operation T) : M T :=
  fun w =>
    let (r, e') := operation (env w) in
    (r, mkWorld e' (trace w ++ [EvInvoke])).

End Effects.

Declare Scope js_scope.
Delimit Scope js_scope with js.
Notation "x <- m ;; k" := (bind m (fun x => k))
  (at level 61, m at next level, right associativity) : js_scope.
Notation "m ;; k" := (bind m (fun _ => k))
  (at level 61, right associativity) : js_scope.

(** ** Buffer.toString('base64') *)

Definition base64Alphabet : string :=
  "ABCDEFGHIJKLMNOPQRSTUVWXYZabcdefghijklmnopqrstuvwxyz0123456789+/".

Definition base64Digit (n : N) : string :=
  match String.get (N.to_nat n) base64Alphabet with
  | Some c => String c ""
  | None => "="
  end.

Fixpoint toBase64 (buffer : list Byte.byte) : string :=
  match buffer with
  | [] => ""
  | [a] =>
      let x := Byte.to_N a in
      base64Digit (x / 4) ++ base64Digit ((x mod 4) * 16) ++ "=="
  | [a; b] =>
      let x := Byte.to_N a in
      let y := Byte.to_N b in
      base64Digit (x / 4) ++ base64Digit ((x mod 4) * 16 + y / 16)
        ++ base64Digit ((y mod 16) * 4) ++ "="
  | a :: b :: c :: rest =>
      let x := Byte.to_N a in
      let y := Byte.to_N b in
      let z := Byte.to_N c in
      base64Digit (x / 4) ++ base64Digit ((x mod 4) * 16 + y / 16)
        ++ base64Digit ((y mod 16) * 4 + z / 64) ++ base64Digit (z mod 64)
        ++ toBase64 rest
  end%N.

(** ** src/services/vision.service.ts *)

Module VisionService.

Record t := mk {
  client : AzureOpenAI;
  modelId : string;
  maxRetries : nat;
  baseDelay : Z
}.

(** [constructor(config)], with the field initialisers
    [maxRetries = 3] and [baseDelay = 1000]. *)
Definition new (config : AzureOpenAIConfig) : t :=
  {| client := mkClient (apiKey config) (endpoint config) "2024-02-15-preview";
     modelId := Types.modelId config;
     maxRetries := 3;
     baseDelay := 1000 |}.

(** The test of lines 41-42 on [lastError.message]. *)
Definition isRateLimit (lastError : JsError) : bool :=
  includes (message lastError) "429"
  || includes (toLowerCase (message lastError)) "rate limit".

(** [throw lastError] with [lastError : Error | null] *)
Definition throwLast {RT : Runtime} {T} (lastError : option JsError) : M T :=
  match lastError with
  | Some e => throw (ThrownError e)
  | None => throw (ThrownValue "null")
  end.

Section Methods.
Context {RT : Runtime}.
Variable this : t.

Local Open Scope js_scope.

(** The [for] loop of [withRetry]: [remaining] counts the iterations
    left, [maxRetries - attempt]; when none is left the loop is exited
    and line 55 throws [lastError].  The two private fields are the
    integers the constructor gives them, for which the arithmetic of
    doubles is exact. *)
Fixpoint retryLoop {T} (operation : Operation T)
    (remaining attempt : nat) (lastError : option JsError) : M T :=
  match remaining with
  | O => throwLast lastError
  | S remaining' =>
      tryCatch (invoke operation) (fun error =>
        let lastError := toError error in
        if isRateLimit lastError
           && (Z.of_nat attempt <? Z.of_nat (maxRetries this) - 1)%Z
        then
          let delay := (baseDelay this * 2 ^ Z.of_nat attempt)%Z in
          consoleLog ("Rate limited. Retrying in " ++ ofZ delay
                      ++ "ms (attempt " ++ ofZ (Z.of_nat attempt + 1)
                      ++ "/" ++ ofZ (Z.of_nat (maxRetries this)) ++ ")") ;;
          sleep delay ;;
          retryLoop operation remaining' (S attempt) (Some lastError)
        else throw (ThrownError lastError))
  end.

Definition withRetry {T} (operation : Operation T) : M T :=
  retryLoop operation (maxRetries this) 0 None.

(** [response.choices[0]?.message?.content] *)
Definition firstContent (response : ChatCompletion) : option string :=
  match choices response with
  | [] => None
  | choice :: _ =>
      match choiceMessage choice with
      | None => None
      | Some m => content m
      end
  end.

(** [if (!caption) throw new Error(msg); return caption.trim();] *)
Definition extractCaption (caption : option string) (msg : string) : Result string :=
  match caption with
  | None => Threw (ThrownError (newError msg))
  | Some c =>
      if String.eqb c "" then Threw (ThrownError (newError msg))
      else Returned (trim c)
  end.

Definition defaultPrompt : string :=
  "Please analyze this image and generate a detailed, natural language caption that describes what you see. Include relevant details about the subjects, actions, setting, colors, and mood if applicable. Keep the caption concise but informative (1-3 sentences).".

(** The argument of [this.client.chat.completions.create]. *)
Definition chatRequest (imageBuffer : list Byte.byte) (mimeType prompt : string)
    (maxTokens : Z) : ChatRequest :=
  let base64Image := toBase64 imageBuffer in
  let dataUrl := "data:" ++ mimeType ++ ";base64," ++ base64Image in
  let messageContent := [TextContent prompt; ImageUrlContent dataUrl "auto"] in
  mkChatRequest (modelId this) [mkParam "user" messageContent]
                maxTokens (QArith_base.Qmake 7 10).

(** The arrow function passed to [withRetry] by both methods; they differ
    in the prompt, in [max_tokens] and in the message of the error for a
    missing content. *)
Definition captionOperation (imageBuffer : list Byte.byte) (mimeType prompt : string)
    (maxTokens : Z) (msg : string) : Operation string :=
  fun e =>
    match chatCompletionsCreate (client this)
            (chatRequest imageBuffer mimeType prompt maxTokens) e with
    | (Returned response, e') => (extractCaption (firstContent response) msg, e')
    | (Threw err, e') => (Threw err, e')
    end.

Definition rateLimitedMessage : string := "API ถูกจำกัด กรุณารอสักครู่".

Definition generateCaption (imageBuffer : list Byte.byte) (mimeType : string)
    : M string :=
  tryCatch
    (withRetry (captionOperation imageBuffer mimeType defaultPrompt 300
                  "No caption generated from the AI model"))
    (fun error =>
       consoleError "Vision service error:" error ;;
       match error with
       | ThrownError e =>
           if includes (message e) "401" then
             throw (ThrownError (newError "Invalid API key or unauthorized access"))
           else if includes (message e) "404" then
             throw (ThrownError (newError "Model deployment not found"))
           else if includes (message e) "429" then
             throw (ThrownError (newError rateLimitedMessage))
           else
             throw (ThrownError (newError ("Failed to generate caption: " ++ message e)))
       | ThrownValue _ =>
           throw (ThrownError (newError
             "An unexpected error occurred while generating the caption"))
       end).

Definition generateCaptionWithPrompt (imageBuffer : list Byte.byte)
    (mimeType customPrompt : string) : M string :=
  tryCatch
    (withRetry (captionOperation imageBuffer mimeType customPrompt 500
                  "No response generated from the AI model"))
    (fun error =>
       consoleError "Vision service error:" error ;;
       match error with
       | ThrownError e =>
           if includes (message e) "429" then
             throw (ThrownError (newError rateLimitedMessage))
           else throw (ThrownError e)
       | ThrownValue _ =>
           throw (ThrownError (newError "An unexpected error occurred"))
       end).

End Methods.

End VisionService.

(** ** src/routes/caption.route.ts *)

Module CaptionRoute.

(** The fields of [Express.Multer.File] the handlers read. *)
Record MulterFile := mkFile {
  buffer : list Byte.byte;
  mimetype : string
}.

(** A request as the handlers see it: [req.file] and [req.body.prompt]. *)
Record Request := mkRequest {
  file : option MulterFile;
  prompt : option string
}.

(** [process.env] restricted to the variables that are read. *)
Record ProcessEnv := mkProcessEnv {
  AZURE_OPENAI_API_KEY : option string;
  AZURE_OPENAI_ENDPOINT : option string;
  AZURE_OPENAI_MODEL_ID : option string
}.

Record HealthResponse := mkHealth {
  status : string;
  healthTimestamp : string;
  supportedFormats : list string;
  maxFileSize : string
}.

Inductive JsonBody :=
| CaptionJson (r : CaptionResponse)
| HealthJson (h : HealthResponse).

(** [res.status(code).json(body)] *)
Record HttpResponse := mkResponse {
  statusCode : Z;
  json : JsonBody
}.

(** [SUPPORTED_IMAGE_TYPES.includes(mimetype)] *)
Definition supported (mimetype : string) : bool :=
  existsb (String.eqb mimetype) SUPPORTED_IMAGE_TYPES.

(** What [fileFilter] hands to its callback: [callback(null, true)] or
    [callback(new Error(...))]. *)
Inductive FilterVerdict :=
| Accept
| Reject (e : JsError).

Definition fileFilter (mimetype : string) : FilterVerdict :=
  if supported mimetype then Accept
  else Reject (newError ("Invalid file type. Supported types: "
                         ++ join ", " SUPPORTED_IMAGE_TYPES)).

(** [limits.fileSize] *)
Definition fileSize : N := 10 * 1024 * 1024.

(** [!v] for a string that may be undefined. *)
Definition falsy (v : option string) : bool :=
  match v with
  | None => true
  | Some s => String.eqb s ""
  end.

(** A [string | undefined] whose truthiness has been tested, read as a
    [string]. *)
Definition narrowed (v : option string) : string :=
  match v with
  | Some s => s
  | None => ""
  end.

Definition getVisionService {RT : Runtime} (processEnv : ProcessEnv)
    : M VisionService.t :=
  let apiKey := AZURE_OPENAI_API_KEY processEnv in
  let endpoint := AZURE_OPENAI_ENDPOINT processEnv in
  let modelId := AZURE_OPENAI_MODEL_ID processEnv in
  if falsy apiKey || falsy endpoint || falsy modelId then
    throw (ThrownError (newError "Missing required Azure OpenAI environment variables"))
  else
    ret (VisionService.new
           (mkConfig (narrowed apiKey) (narrowed endpoint) (narrowed modelId))).

(** [file.buffer] is a [Buffer], so [!file.buffer] is false and the second
    test is the one on its length. *)
Definition validateFile (file : option MulterFile) : ValidationResult :=
  match file with
  | None => mkValidation false (Some "No image file provided")
  | Some file =>
      if (length (buffer file) =? 0)%nat then
        mkValidation false (Some "Empty file uploaded")
      else if negb (supported (mimetype file)) then
        mkValidation false
          (Some ("Invalid file type: " ++ mimetype file ++ ". Supported: "
                 ++ join ", " SUPPORTED_IMAGE_TYPES))
      else mkValidation true None
  end.

(** *** The upload middleware

    [upload.single('image')] is multer configured with [fileFilter] and
    [limits.fileSize].  For the file part of the form it first asks
    [fileFilter]; an error given to the callback aborts the upload and is
    passed on unchanged.  An accepted file is read into memory; when it
    holds more than [fileSize] bytes the upload is aborted with a
    [MulterError] whose code is [LIMIT_FILE_SIZE].  Otherwise the file
    becomes [req.file].  A form without a file part leaves [req.file]
    undefined.  An error of the upload middleware skips the handler and
    reaches the error-handling middleware of the router.  A form holds at
    most one file, in the field [image], and may hold the text field
    [prompt]. *)
Record FilePart := mkPart {
  partMimetype : string;
  partData : list Byte.byte
}.

Record Multipart := mkMultipart {
  imagePart : option FilePart;
  promptField : option string
}.

Inductive Uploaded :=
| UploadFailed (e : JsError)
| UploadDone (req : Request).

Definition uploadSingle (form : Multipart) : Uploaded :=
  match imagePart form with
  | None => UploadDone (mkRequest None (promptField form))
  | Some part =>
      match fileFilter (partMimetype part) with
      | Reject e => UploadFailed e
      | Accept =>
          if (fileSize <? N.of_nat (length (partData part)))%N then
            UploadFailed (mkError (MulterError "LIMIT_FILE_SIZE") "File too large")
          else
            UploadDone (mkRequest
                          (Some (mkFile (partData part) (partMimetype part)))
                          (promptField form))
      end
  end.

Inductive Route :=
| PostCaption      (* POST /api/caption *)
| PostCustom       (* POST /api/caption/custom *)
| GetHealth.       (* GET  /api/caption/health *)

Section Handlers.
Context {RT : Runtime}.
Variable processEnv : ProcessEnv.
(** [new Date().toISOString()] at the start of the handler. *)
Variable now : string.

Local Open Scope js_scope.

(** [error instanceof Error ? error.message : 'An unexpected error occurred'] *)
Definition caughtMessage (error : Thrown) : string :=
  match error with
  | ThrownError e => message e
  | ThrownValue _ => "An unexpected error occurred"
  end.

(** The [catch] block shared by the two POST handlers.  The [response]
    object it completes is the initial one: the [try] block writes to
    it only just before it sends it. *)
Definition captionCatch (response : CaptionResponse) (error : Thrown)
    : M HttpResponse :=
  consoleError "Caption generation error:" error ;;
  ret (mkResponse 500
         (CaptionJson (mkCaptionResponse (success response) (caption response)
                         (Some (caughtMessage error)) (timestamp response)))).

(** [req.file!] followed by a property read: a [TypeError] when the file
    is undefined. *)
Definition fileOrTypeError (file : option MulterFile) : M MulterFile :=
  match file with
  | Some f => ret f
  | None =>
      throw (ThrownError (newError
        "Cannot read properties of undefined (reading 'buffer')"))
  end.

(** [router.post('/', upload.single('image'), async (req, res) => ...)],
    the handler after the upload middleware. *)
Definition postCaption (req : Request) : M HttpResponse :=
  let response := mkCaptionResponse false None None now in
  tryCatch
    (let validation := validateFile (file req) in
     if negb (isValid validation) then
       ret (mkResponse 400
              (CaptionJson (mkCaptionResponse false None
                              (validationError validation) now)))
     else
       file <- fileOrTypeError (file req) ;;
       visionService <- getVisionService processEnv ;;
       caption <- VisionService.generateCaption visionService
                    (buffer file) (mimetype file) ;;
       ret (mkResponse 200
              (CaptionJson (mkCaptionResponse true (Some caption) None now))))
    (captionCatch response).

(** [router.post('/custom', upload.single('image'), async (req, res) => ...)] *)
Definition postCustom (req : Request) : M HttpResponse :=
  let response := mkCaptionResponse false None None now in
  tryCatch
    (let validation := validateFile (file req) in
     if negb (isValid validation) then
       ret (mkResponse 400
              (CaptionJson (mkCaptionResponse false None
                              (validationError validation) now)))
     else
       let customPrompt := prompt req in
       if falsy customPrompt
          || (String.length (trim (narrowed customPrompt)) =? 0)%nat
       then
         ret (mkResponse 400
                (CaptionJson (mkCaptionResponse false None
                                (Some "Custom prompt is required") now)))
       else
         file <- fileOrTypeError (file req) ;;
         visionService <- getVisionService processEnv ;;
         caption <- VisionService.generateCaptionWithPrompt visionService
                      (buffer file) (mimetype file)
                      (trim (narrowed customPrompt)) ;;
         ret (mkResponse 200
                (CaptionJson (mkCaptionResponse true (Some caption) None now))))
    (captionCatch response).

(** [router.get('/health', ...)] *)
Definition getHealth : M HttpResponse :=
  ret (mkResponse 200
         (HealthJson (mkHealth "healthy" now SUPPORTED_IMAGE_TYPES "10MB"))).

(** [error.message || fallback] *)
Definition messageOr (e : JsError) (fallback : string) : string :=
  if String.eqb (message e) "" then fallback else message e.

(** The error-handling middleware at the end of the router. *)
Definition errorMiddleware (error : JsError) : M HttpResponse :=
  match errorClass error with
  | MulterError code =>
      if String.eqb code "LIMIT_FILE_SIZE" then
        ret (mkResponse 400
               (CaptionJson (mkCaptionResponse false None
                               (Some "File size exceeds the 10MB limit") now)))
      else
        ret (mkResponse 400
               (CaptionJson (mkCaptionResponse false None
                               (Some ("Upload error: " ++ message error)) now)))
  | _ =>
      ret (mkResponse 500
             (CaptionJson (mkCaptionResponse false None
                             (Some (messageOr error "An unexpected error occurred"))
                             now)))
  end.

(** The router: the upload middleware runs before each POST handler,
    and its errors go to the error-handling middleware. *)
Definition router (route : Route) (form : Multipart) : M HttpResponse :=
  match route with
  | GetHealth => getHealth
  | PostCaption =>
      match uploadSingle form with
      | UploadFailed e => errorMiddleware e
      | UploadDone req => postCaption req
      end
  | PostCustom =>
      match uploadSingle form with
      | UploadFailed e => errorMiddleware e
      | UploadDone req => postCustom req
      end
  end.

End Handlers.

End CaptionRoute.

(** ** src/server.ts: the check of the environment when the server starts *)

Module Server.

Import CaptionRoute.

Definition requiredEnvVars : list string :=
  ["AZURE_OPENAI_API_KEY"; "AZURE_OPENAI_ENDPOINT"; "AZURE_OPENAI_MODEL_ID"].

(** [process.env[varName]] *)
Definition lookup (processEnv : ProcessEnv) (varName : string) : option string :=
  if String.eqb varName "AZURE_OPENAI_API_KEY" then AZURE_OPENAI_API_KEY processEnv
  else if String.eqb varName "AZURE_OPENAI_ENDPOINT" then AZURE_OPENAI_ENDPOINT processEnv
  else if String.eqb varName "AZURE_OPENAI_MODEL_ID" then AZURE_OPENAI_MODEL_ID processEnv
  else None.

Definition missingVars (processEnv : ProcessEnv) : list string :=
  filter (fun varName => falsy (lookup processEnv varName)) requiredEnvVars.

(** The end of the [app.listen] callback: console output only. *)
Definition validateEnvironment (processEnv : ProcessEnv) : list Event :=
  if (0 <? length (missingVars processEnv))%nat then
    [ EvWarn ("⚠️  Warning: Missing environment variables: "
              ++ join ", " (missingVars processEnv));
      EvWarn "   Please check your .env file configuration." ]
  else
    [ EvLog "✅ All required environment variables are configured." ].

End Server.

(** ** Notions used to state the properties *)

Module Spec.

(** [pat] occurs in [s]. *)
Definition contains (s pat : string) : Prop :=
  exists pre post, s = pre ++ pat ++ post.

(** [pat] occurs in [s] up to the case of letters. *)
Definition containsIgnoringCase (s pat : string) : Prop :=
  exists pre mid post,
    s = pre ++ mid ++ post /\ toLowerCase mid = toLowerCase pat.

(** A string made of tokens of [toks] only. *)
Inductive Tokens (toks : list string) : string -> Prop :=
| Tokens_nil : Tokens toks ""
| Tokens_cons t s : In t toks -> Tokens toks s -> Tokens toks (t ++ s).

Definition WhiteSpaceOnly : string -> Prop := Tokens whiteSpace.

(** Tokens are one to three bytes long. *)
Definition shortTokens (toks : list string) : Prop :=
  forall t, In t toks -> 1 <= String.length t <= 3.

(** [out] is [s] without its leading and trailing white space. *)
Definition Trimmed (s out : string) : Prop :=
  exists l r,
    WhiteSpaceOnly l /\ WhiteSpaceOnly r /\ s = l ++ out ++ r
    /\ (forall t rest, In t whiteSpace -> out <> t ++ rest)
    /\ (forall t rest, In t whiteSpace -> out <> rest ++ t).

(** How often the retried operation was called in a trace. *)
Fixpoint invocations (tr : list Event) : nat :=
  match tr with
  | [] => 0
  | EvInvoke :: tr' => S (invocations tr')
  | _ :: tr' => invocations tr'
  end.

(** The waits of a trace, in order. *)
Fixpoint sleeps (tr : list Event) : list Z :=
  match tr with
  | [] => []
  | EvSleep ms :: tr' => ms :: sleeps tr'
  | _ :: tr' => sleeps tr'
  end.

(** Every invocation of [operation] fails with a rate-limit error. *)
Definition alwaysRateLimited {RT : Runtime} {T} (operation : Operation T) : Prop :=
  forall e, exists err e',
    operation e = (Threw err, e')
    /\ VisionService.isRateLimit (toError err) = true.

(** The backoff schedule as section 4.1 of the specification words it:
    at most three attempts, with waits of 1s, 2s and 4s. *)
Definition backoffAsSpecified (tr : list Event) : Prop :=
  invocations tr <= 3 /\ sleeps tr = [1000; 2000; 4000]%Z.

(** The image is acceptable to the upload middleware and to
    [validateFile]. *)
Definition validImage (part : CaptionRoute.FilePart) : Prop :=
  CaptionRoute.supported (CaptionRoute.partMimetype part) = true
  /\ 0 < length (CaptionRoute.partData part)
  /\ (N.of_nat (length (CaptionRoute.partData part)) <= CaptionRoute.fileSize)%N.

(** An environment variable that is not set, or set to the empty string. *)
Definition unset (v : option string) : Prop := v = None \/ v = Some "".

(** One of the three required variables is missing. *)
Definition configMissing (processEnv : CaptionRoute.ProcessEnv) : Prop :=
  unset (CaptionRoute.AZURE_OPENAI_API_KEY processEnv)
  \/ unset (CaptionRoute.AZURE_OPENAI_ENDPOINT processEnv)
  \/ unset (CaptionRoute.AZURE_OPENAI_MODEL_ID processEnv).

(** The service that [getVisionService] builds from the environment. *)
Definition serviceOf (processEnv : CaptionRoute.ProcessEnv) : VisionService.t :=
  VisionService.new
    (mkConfig (CaptionRoute.narrowed (CaptionRoute.AZURE_OPENAI_API_KEY processEnv))
              (CaptionRoute.narrowed (CaptionRoute.AZURE_OPENAI_ENDPOINT processEnv))
              (CaptionRoute.narrowed (CaptionRoute.AZURE_OPENAI_MODEL_ID processEnv))).

(** A prompt that is missing, empty or made of white space only. *)
Definition blankPrompt (v : option string) : Prop :=
  v = None \/ v = Some "" \/ exists p, v = Some p /\ WhiteSpaceOnly p.

(** The error body of a response. *)
Definition errorBody (now msg : string) : CaptionRoute.JsonBody :=
  CaptionRoute.CaptionJson (mkCaptionResponse false None (Some msg) now).


(** The invariant of the response envelope. *)
Definition envelopeOk (now : string) (res : CaptionRoute.HttpResponse) : Prop :=
  exists r,
    CaptionRoute.json res = CaptionRoute.CaptionJson r
    /\ timestamp r = now
    /\ (success r = true <-> CaptionRoute.statusCode res = 200%Z)
    /\ (caption r <> None -> success r = true)
    /\ (error r <> None -> success r = false).

End Spec.

(** ** Concrete worlds and inputs *)

Module Samples.

(** A remote service that plays back a script of outcomes, one per call. *)
Definition scripted : Runtime :=
  {| Env := list (Result ChatCompletion);
     elapse := fun _ e => e;
     chatCompletionsCreate := fun _ _ e =>
       match e with
       | [] => (Threw (ThrownValue "script exhausted"), [])
       | r :: rest => (r, rest)
       end |}.

Definition start (script : list (Result ChatCompletion)) : @World scripted :=
  @mkWorld scripted script [].

Definition completionOf (text : string) : ChatCompletion :=
  mkChatCompletion [mkChoice (Some (mkChatMessage (Some text)))].

Definition tooManyRequests : JsError :=
  mkError (APIError 429) "429 Rate limit reached for requests".

Definition unauthorized : JsError :=
  mkError (APIError 401) "401 Access denied due to invalid subscription key".

(** An operation that is rate limited whenever it is called. *)
Definition throttled : @Operation scripted string :=
  fun e => (Threw (ThrownError tooManyRequests), e).

(** An operation that succeeds at its first call. *)
Definition succeeding : @Operation scripted string :=
  fun e => (Returned "a cat on a sofa", e).

(** An operation that is refused for lack of credentials. *)
Definition refused : @Operation scripted string :=
  fun e => (Threw (ThrownError unauthorized), e).

(** An operation that throws a value that is not an [Error]. *)
Definition throwingText : @Operation scripted string :=
  fun e => (Threw (ThrownValue "socket hang up"), e).

Definition config : AzureOpenAIConfig :=
  mkConfig "key" "https://example.openai.azure.com/" "gpt-4o".

Definition configured : CaptionRoute.ProcessEnv :=
  CaptionRoute.mkProcessEnv (Some "key")
    (Some "https://example.openai.azure.com/") (Some "gpt-4o").

Definition unconfigured : CaptionRoute.ProcessEnv :=
  CaptionRoute.mkProcessEnv None None None.

Definition jpeg : CaptionRoute.FilePart :=
  CaptionRoute.mkPart "image/jpeg" [Byte.xff; Byte.xd8; Byte.xff].

Definition textFile : CaptionRoute.FilePart :=
  CaptionRoute.mkPart "text/plain" [Byte.x68; Byte.x69].

Definition noon : string := "2026-01-07T12:00:00.000Z".

Definition image : list Byte.byte := [Byte.xff; Byte.xd8; Byte.xff].

(** A form with a JPEG image and no prompt. *)
Definition jpegForm : CaptionRoute.Multipart :=
  CaptionRoute.mkMultipart (Some jpeg) None.

(** A form with a JPEG image and a prompt of blanks. *)
Definition blankPromptForm : CaptionRoute.Multipart :=
  CaptionRoute.mkMultipart (Some jpeg) (Some "  ").

(** A form with a JPEG image and a prompt. *)
Definition promptForm : CaptionRoute.Multipart :=
  CaptionRoute.mkMultipart (Some jpeg) (Some "What colour is the cat?").

(** More bytes than the upload limit allows. *)
Definition oversized : list Byte.byte :=
  repeat Byte.x00 (N.to_nat (CaptionRoute.fileSize + 1)).

(** A text file above the upload limit. *)
Definition oversizedTextForm : CaptionRoute.Multipart :=
  CaptionRoute.mkMultipart (Some (CaptionRoute.mkPart "text/plain" oversized)) None.

(** A form whose file is not an image. *)
Definition textForm : CaptionRoute.Multipart :=
  CaptionRoute.mkMultipart (Some textFile) None.

End Samples.

(** ** Further notions and inputs *)

Module More.

(** The time waited in a trace, in milliseconds. *)
Definition waited (tr : list Event) : Z := fold_right Z.add 0%Z (Spec.sleeps tr).

(** [error instanceof multer.MulterError] *)
Definition isMulterError (e : JsError) : bool :=
  match errorClass e with
  | MulterError _ => true
  | _ => false
  end.

(** The operation of [generateCaption] on the sample image. *)
Definition describeImage : @Operation Samples.scripted string :=
  VisionService.captionOperation (VisionService.new Samples.config)
    Samples.image "image/jpeg" VisionService.defaultPrompt 300
    "No caption generated from the AI model".

Definition rateLimited : Result ChatCompletion :=
  Threw (ThrownError Samples.tooManyRequests).

Definition denied : Result ChatCompletion :=
  Threw (ThrownError Samples.unauthorized).

(** The test of [getVisionService]: [!apiKey || !endpoint || !modelId]. *)
Definition missing (processEnv : CaptionRoute.ProcessEnv) : bool :=
  CaptionRoute.falsy (CaptionRoute.AZURE_OPENAI_API_KEY processEnv)
  || CaptionRoute.falsy (CaptionRoute.AZURE_OPENAI_ENDPOINT processEnv)
  || CaptionRoute.falsy (CaptionRoute.AZURE_OPENAI_MODEL_ID processEnv).

(** The answer of the [catch] block of the POST handlers. *)
Definition caught {RT : Runtime} (now : string) (t : Thrown) (w : World)
    : Result CaptionRoute.HttpResponse * World :=
  (Returned (CaptionRoute.mkResponse 500
               (Spec.errorBody now (CaptionRoute.caughtMessage t))),
   mkWorld (env w) (trace w ++ [EvConsoleError "Caption generation error:" t])).

(** The answer with a caption. *)
Definition captioned (now caption : string) : CaptionRoute.HttpResponse :=
  CaptionRoute.mkResponse 200
    (CaptionRoute.CaptionJson (mkCaptionResponse true (Some caption) None now)).

(** A remote service that answers every call with a 429 error. *)
Definition overloaded : Runtime :=
  {| Env := unit;
     elapse := fun _ e => e;
     chatCompletionsCreate := fun _ _ e =>
       (Threw (ThrownError Samples.tooManyRequests), e) |}.

(** The remote service refuses every call with a rate-limit error whose
    message holds [429] and neither [401] nor [404]. *)
Definition alwaysTooManyRequests {RT : Runtime} : Prop :=
  forall client request e, exists err e',
    chatCompletionsCreate client request e = (Threw (ThrownError err), e')
    /\ includes (message err) "429" = true
    /\ includes (message err) "401" = false
    /\ includes (message err) "404" = false.

(** A failure of the API client whose error has an empty message. *)
Definition silentFailure : Result ChatCompletion :=
  Threw (ThrownError (mkError (APIError 500) "")).

(** A form with a JPEG image and the sample prompt between blanks. *)
Definition paddedPromptForm : CaptionRoute.Multipart :=
  CaptionRoute.mkMultipart (Some Samples.jpeg) (Some "  What colour is the cat? ").

End More.

(** * Properties *)

Import Spec.

(** ** Strings *)

Example includes_ex1 : includes "Error: 429 Too Many Requests" "429" = true.
Proof. reflexivity. Qed.
Example includes_ex2 : includes "Request failed" "429" = false.
Proof. reflexivity. Qed.
Example lower_ex : toLowerCase "Rate LIMIT reached [Z@`{" = "rate limit reached [z@`{".
Proof. reflexivity. Qed.
Example trim_ex1 : trim ("  a cat " ++ bytes [194; 160; 10]) = "a cat".
Proof. reflexivity. Qed.
Example trim_ex2 : trim (bytes [239; 187; 191; 9] ++ "x y" ++ bytes [226; 128; 137]) = "x y".
Proof. reflexivity. Qed.
Example trim_ex3 : trim "   " = "".
Proof. reflexivity. Qed.
Example ofZ_ex : ofZ 2000 = "2000" /\ ofZ 0 = "0".
Proof. split; reflexivity. Qed.

Example toBase64_ex :
  toBase64 [Byte.x4d; Byte.x61; Byte.x6e] = "TWFu"
  /\ toBase64 [Byte.x4d; Byte.x61] = "TWE="
  /\ toBase64 [Byte.x4d] = "TQ==".
Proof. repeat split; reflexivity. Qed.

Lemma append_nil_r (s : string) : s ++ "" = s.
Proof. induction s; simpl; congruence. Qed.

Lemma append_assoc (a b c : string) : (a ++ b) ++ c = a ++ b ++ c.
Proof. induction a; simpl; congruence. Qed.

Lemma startsWith_iff (s pat : string) :
  startsWith s pat = true <-> exists rest, s = pat ++ rest.
Proof.
  unfold startsWith. revert s.
  induction pat as [|a pat IH]; intros s.
  - destruct s; simpl; split; eauto.
  - destruct s as [|b s]; simpl.
    + split; [discriminate | intros [rest H]; discriminate].
    + destruct (ascii_dec a b) as [->|Hne].
      * split.
        -- intros H. apply IH in H. destruct H as [rest ->]. eauto.
        -- intros [rest H]. apply IH. exists rest. congruence.
      * split; [discriminate | intros [rest H]; congruence].
Qed.

Lemma includes_iff (s pat : string) : includes s pat = true <-> contains s pat.
Proof.
  unfold contains.
  induction s as [|c s IH]; cbn [includes];
    rewrite orb_true_iff, startsWith_iff.
  - split.
    + intros [[rest H]|H]; [exists "", rest; exact H | discriminate].
    + intros [pre [post H]]. left.
      destruct pre; [exists post; exact H | discriminate].
  - rewrite IH. split.
    + intros [[rest H]|[pre [post H]]].
      * exists "", rest. exact H.
      * exists (String c pre), post. simpl. congruence.
    + intros [pre [post H]]. destruct pre as [|c' pre]; simpl in H.
      * left. exists post. exact H.
      * right. exists pre, post. congruence.
Qed.

Lemma toLowerCase_app (a b : string) :
  toLowerCase (a ++ b) = toLowerCase a ++ toLowerCase b.
Proof. induction a; simpl; congruence. Qed.

Lemma toLowerCase_split (s x y : string) :
  toLowerCase s = x ++ y ->
  exists a b, s = a ++ b /\ toLowerCase a = x /\ toLowerCase b = y.
Proof.
  revert s. induction x as [|c x IH]; intros s H; simpl in H.
  - exists "", s. auto.
  - destruct s as [|d s]; simpl in H; [discriminate|].
    injection H as Hc Hs. destruct (IH s Hs) as [a [b [-> [Ha Hb]]]].
    exists (String d a), b. simpl. repeat split; congruence.
Qed.

Lemma includes_toLowerCase_iff (s pat : string) :
  toLowerCase pat = pat ->
  includes (toLowerCase s) pat = true <-> containsIgnoringCase s pat.
Proof.
  intros Hpat. rewrite includes_iff. unfold contains, containsIgnoringCase.
  rewrite Hpat. split.
  - intros [pre [post H]].
    destruct (toLowerCase_split _ _ _ H) as [a [b [-> [Ha Hb]]]].
    destruct (toLowerCase_split _ _ _ Hb) as [m [p [-> [Hm Hp]]]].
    exists a, m, p. auto.
  - intros [pre [mid [post [-> Hm]]]].
    exists (toLowerCase pre), (toLowerCase post).
    rewrite !toLowerCase_app, Hm. reflexivity.
Qed.

(** ** White space and trimming *)

Lemma isToken_In (toks : list string) (t : string) :
  isToken toks t = true <-> In t toks.
Proof.
  unfold isToken. rewrite existsb_exists. split.
  - intros [x [Hin Heq]]. apply String.eqb_eq in Heq. subst. exact Hin.
  - intros H. exists t. split; [exact H | apply String.eqb_refl].
Qed.

Lemma Tokens_app (toks : list string) (a b : string) :
  Tokens toks a -> Tokens toks b -> Tokens toks (a ++ b).
Proof.
  induction 1 as [|t s Hin Hs IH]; intros Hb; simpl.
  - exact Hb.
  - rewrite append_assoc. constructor; auto.
Qed.

(** What [stripLeading] removes is made of tokens. *)
Lemma stripLeading_split (toks : list string) :
  forall n s, String.length s <= n ->
    exists l, Tokens toks l /\ s = l ++ stripLeading toks s.
Proof.
  induction n as [|n IH]; intros s Hn.
  - destruct s; simpl in Hn; [|lia].
    exists "". split; [constructor | reflexivity].
  - destruct s as [|c1 s1]; [exists ""; split; [constructor | reflexivity]|].
    simpl in Hn. cbn [stripLeading].
    destruct (isToken toks (String c1 "")) eqn:H1.
    { destruct (IH s1) as [l [Hl Hs]]; [lia|].
      exists (String c1 "" ++ l). split.
      - constructor; [apply isToken_In; exact H1 | exact Hl].
      - simpl. congruence. }
    destruct s1 as [|c2 s2]; [exists ""; split; [constructor | reflexivity]|].
    simpl in Hn.
    destruct (isToken toks (String c1 (String c2 ""))) eqn:H2.
    { destruct (IH s2) as [l [Hl Hs]]; [lia|].
      exists (String c1 (String c2 "") ++ l). split.
      - constructor; [apply isToken_In; exact H2 | exact Hl].
      - simpl. congruence. }
    destruct s2 as [|c3 s3]; [exists ""; split; [constructor | reflexivity]|].
    simpl in Hn.
    destruct (isToken toks (String c1 (String c2 (String c3 "")))) eqn:H3.
    { destruct (IH s3) as [l [Hl Hs]]; [lia|].
      exists (String c1 (String c2 (String c3 "")) ++ l). split.
      - constructor; [apply isToken_In; exact H3 | exact Hl].
      - simpl. congruence. }
    exists "". split; [constructor | reflexivity].
Qed.

(** What [stripLeading] leaves does not start with a token. *)
Lemma stripLeading_none (toks : list string) :
  shortTokens toks ->
  forall n s, String.length s <= n ->
    forall t rest, In t toks -> stripLeading toks s <> t ++ rest.
Proof.
  intros Hshort.
  assert (Hne : forall t rest, In t toks -> "" <> t ++ rest).
  { intros t rest Hin. specialize (Hshort t Hin).
    destruct t; simpl in *; [lia | discriminate]. }
  induction n as [|n IH]; intros s Hn t rest Hin.
  - destruct s; simpl in Hn; [|lia]. simpl. auto.
  - destruct s as [|c1 s1]; [simpl; auto|].
    simpl in Hn. cbn [stripLeading].
    destruct (isToken toks (String c1 "")) eqn:H1; [apply IH; [lia | exact Hin]|].
    assert (K1 : t <> String c1 "").
    { intros E. subst t. apply isToken_In in Hin. congruence. }
    destruct s1 as [|c2 s2].
    { intros E. pose proof (Hshort t Hin) as Hl.
      destruct t as [|a [|b t']]; simpl in *; try lia; try discriminate.
      injection E as -> _. exact (K1 eq_refl). }
    simpl in Hn.
    destruct (isToken toks (String c1 (String c2 ""))) eqn:H2;
      [apply IH; [lia | exact Hin]|].
    assert (K2 : t <> String c1 (String c2 "")).
    { intros E. subst t. apply isToken_In in Hin. congruence. }
    destruct s2 as [|c3 s3].
    { intros E. pose proof (Hshort t Hin) as Hl.
      destruct t as [|a [|b [|c t']]]; simpl in *; try lia; try discriminate.
      - injection E as -> _. exact (K1 eq_refl).
      - injection E as -> -> _. exact (K2 eq_refl). }
    simpl in Hn.
    destruct (isToken toks (String c1 (String c2 (String c3 "")))) eqn:H3;
      [apply IH; [lia | exact Hin]|].
    intros E. pose proof (Hshort t Hin) as Hl.
    destruct t as [|a [|b [|c [|d t']]]]; simpl in *; try lia.
    + injection E as -> _. exact (K1 eq_refl).
    + injection E as -> -> _. exact (K2 eq_refl).
    + injection E as -> -> -> _. apply isToken_In in Hin. congruence.
Qed.

Lemma list_ascii_of_string_app (a b : string) :
  list_ascii_of_string (a ++ b) = (list_ascii_of_string a ++ list_ascii_of_string b)%list.
Proof. induction a; simpl; congruence. Qed.

Lemma string_of_list_ascii_app (l1 l2 : list ascii) :
  string_of_list_ascii (l1 ++ l2) = string_of_list_ascii l1 ++ string_of_list_ascii l2.
Proof. induction l1; simpl; congruence. Qed.

Lemma reverse_app (a b : string) : reverse (a ++ b) = reverse b ++ reverse a.
Proof.
  unfold reverse.
  now rewrite list_ascii_of_string_app, rev_app_distr, string_of_list_ascii_app.
Qed.

Lemma reverse_involutive (s : string) : reverse (reverse s) = s.
Proof.
  unfold reverse.
  now rewrite list_ascii_of_string_of_list_ascii, rev_involutive,
    string_of_list_ascii_of_string.
Qed.

Lemma reverse_length (s : string) : String.length (reverse s) = String.length s.
Proof.
  assert (H : forall l, String.length (string_of_list_ascii l) = List.length l).
  { induction l; simpl; congruence. }
  assert (G : forall u, List.length (list_ascii_of_string u) = String.length u).
  { induction u; simpl; congruence. }
  unfold reverse. now rewrite H, length_rev, G.
Qed.

Lemma shortTokens_check (toks : list string) :
  forallb (fun t => (1 <=? String.length t)%nat && (String.length t <=? 3)%nat) toks = true ->
  shortTokens toks.
Proof.
  intros H t Hin. rewrite forallb_forall in H. specialize (H t Hin).
  apply andb_true_iff in H. destruct H as [H1 H2].
  apply Nat.leb_le in H1. apply Nat.leb_le in H2. lia.
Qed.

Lemma whiteSpace_short : shortTokens whiteSpace.
Proof. apply shortTokens_check. reflexivity. Qed.

Lemma whiteSpace_reversed_short : shortTokens (map reverse whiteSpace).
Proof. apply shortTokens_check. reflexivity. Qed.

Lemma Tokens_reverse (toks : list string) (l : string) :
  Tokens (map reverse toks) l -> Tokens toks (reverse l).
Proof.
  induction 1 as [|t s Hin Hs IH].
  - constructor.
  - rewrite reverse_app. apply Tokens_app; [exact IH|].
    apply in_map_iff in Hin. destruct Hin as [u [<- Hu]].
    rewrite reverse_involutive, <- (append_nil_r u).
    constructor; [exact Hu | constructor].
Qed.

Lemma trimStart_spec (s : string) :
  (exists l, WhiteSpaceOnly l /\ s = l ++ trimStart s)
  /\ (forall t rest, In t whiteSpace -> trimStart s <> t ++ rest).
Proof.
  split.
  - exact (stripLeading_split whiteSpace (String.length s) s (le_n _)).
  - exact (stripLeading_none whiteSpace whiteSpace_short (String.length s) s (le_n _)).
Qed.

Lemma trimEnd_spec (s : string) :
  (exists r, WhiteSpaceOnly r /\ s = trimEnd s ++ r)
  /\ (forall t rest, In t whiteSpace -> trimEnd s <> rest ++ t).
Proof.
  unfold trimEnd. split.
  - destruct (stripLeading_split (map reverse whiteSpace)
                (String.length (reverse s)) (reverse s) (le_n _)) as [l [Hl Hs]].
    exists (reverse l). split; [apply Tokens_reverse; exact Hl|].
    rewrite <- reverse_app, <- Hs, reverse_involutive. reflexivity.
  - intros t rest Hin E.
    apply (f_equal reverse) in E. rewrite reverse_involutive, reverse_app in E.
    revert E.
    apply (stripLeading_none (map reverse whiteSpace) whiteSpace_reversed_short
             (String.length (reverse s)) (reverse s) (le_n _)).
    apply in_map. exact Hin.
Qed.

(** [trim] removes the leading and the trailing white space and nothing else. *)
Lemma trim_Trimmed (s : string) : Trimmed s (trim s).
Proof.
  unfold Trimmed, trim.
  destruct (trimStart_spec s) as [[l [Hl Hs]] Hnone].
  destruct (trimEnd_spec (trimStart s)) as [[r [Hr Hm]] Hend].
  exists l, r. repeat split; auto.
  - rewrite <- Hm. exact Hs.
  - intros t rest Hin E. apply (Hnone t (rest ++ r) Hin).
    rewrite Hm at 1. rewrite E. apply append_assoc.
Qed.

Lemma stripLeading_whiteSpace_token (t s : string) :
  In t whiteSpace ->
  stripLeading whiteSpace (t ++ s) = stripLeading whiteSpace s.
Proof.
  intros Hin. vm_compute in Hin.
  repeat (destruct Hin as [<-|Hin]; [reflexivity|]). contradiction.
Qed.

Lemma WhiteSpaceOnly_trimStart (l s : string) :
  WhiteSpaceOnly l -> trimStart (l ++ s) = trimStart s.
Proof.
  unfold trimStart. induction 1 as [|t u Hin Hu IH]; [reflexivity|].
  rewrite append_assoc, stripLeading_whiteSpace_token by exact Hin. exact IH.
Qed.

(** A string of white space trims to the empty string. *)
Lemma WhiteSpaceOnly_trim (s : string) : WhiteSpaceOnly s -> trim s = "".
Proof.
  intros H. unfold trim.
  rewrite <- (append_nil_r s), WhiteSpaceOnly_trimStart by exact H. reflexivity.
Qed.

(** A string trims to the empty string exactly when it is white space. *)
Lemma trim_empty_iff (s : string) : trim s = "" <-> WhiteSpaceOnly s.
Proof.
  split; [|apply WhiteSpaceOnly_trim].
  intros H. destruct (trim_Trimmed s) as [l [r [Hl [Hr [Hs _]]]]].
  rewrite H in Hs. simpl in Hs. subst s. apply Tokens_app; assumption.
Qed.

(** ** The retry wrapper *)

Lemma invocations_app (a b : list Event) :
  invocations (a ++ b) = invocations a + invocations b.
Proof. induction a as [|[] a IH]; simpl; congruence. Qed.

Lemma sleeps_app (a b : list Event) : sleeps (a ++ b) = (sleeps a ++ sleeps b)%list.
Proof. induction a as [|[] a IH]; simpl; congruence. Qed.

Section RetryLoop.
Context {RT : Runtime} {T : Type}.
Variable this : VisionService.t.
Variable operation : Operation T.

Import VisionService.

(** An iteration whose invocation succeeds returns at once. *)
Lemma retryLoop_returned remaining attempt lastError e tr v e' :
  operation e = (Returned v, e') ->
  retryLoop this operation (S remaining) attempt lastError (mkWorld e tr)
  = (Returned v, mkWorld e' (tr ++ [EvInvoke])).
Proof.
  intros H. cbn [retryLoop]. unfold tryCatch, invoke. cbn [env trace].
  rewrite H. reflexivity.
Qed.

(** An iteration whose invocation fails, with the error not a rate limit or
    on the last attempt, throws at once. *)
Lemma retryLoop_threw remaining attempt lastError e tr t e' :
  operation e = (Threw t, e') ->
  isRateLimit (toError t)
    && (Z.of_nat attempt <? Z.of_nat (maxRetries this) - 1)%Z = false ->
  retryLoop this operation (S remaining) attempt lastError (mkWorld e tr)
  = (Threw (ThrownError (toError t)), mkWorld e' (tr ++ [EvInvoke])).
Proof.
  intros H Hc. cbn [retryLoop]. unfold tryCatch, invoke. cbn [env trace].
  rewrite H, Hc. reflexivity.
Qed.

(** An iteration whose invocation fails with a rate limit before the last
    attempt logs, waits and goes on with the next attempt. *)
Lemma retryLoop_retried remaining attempt lastError e tr t e' :
  operation e = (Threw t, e') ->
  isRateLimit (toError t) = true ->
  (Z.of_nat attempt < Z.of_nat (maxRetries this) - 1)%Z ->
  retryLoop this operation (S remaining) attempt lastError (mkWorld e tr)
  = retryLoop this operation remaining (S attempt) (Some (toError t))
      (mkWorld (elapse (baseDelay this * 2 ^ Z.of_nat attempt) e')
         (tr ++
            [EvInvoke;
             EvLog ("Rate limited. Retrying in "
                    ++ ofZ (baseDelay this * 2 ^ Z.of_nat attempt)
                    ++ "ms (attempt " ++ ofZ (Z.of_nat attempt + 1)
                    ++ "/" ++ ofZ (Z.of_nat (maxRetries this)) ++ ")");
             EvSleep (baseDelay this * 2 ^ Z.of_nat attempt)])).
Proof.
  intros H Hr Hlt. apply Z.ltb_lt in Hlt.
  cbn [retryLoop]. unfold tryCatch, invoke. cbn [env trace].
  rewrite H, Hr, Hlt.
  cbn [andb]. unfold bind, consoleLog, emit, sleep. cbn [env trace].
  rewrite <- !app_assoc. reflexivity.
Qed.

End RetryLoop.

(** [withRetry] is the loop entered at attempt 0 with [maxRetries] iterations
    left and no error yet. *)
Lemma withRetry_is_retryLoop {RT : Runtime} {T : Type}
    (this : VisionService.t) (operation : Operation T) :
  VisionService.withRetry this operation
  = VisionService.retryLoop this operation (VisionService.maxRetries this) 0 None.
Proof. reflexivity. Qed.

(** The wrapper only adds to the trace, and it invokes the operation at most
    once per iteration left, and at least once when an iteration is left. *)
Lemma retryLoop_trace {RT : Runtime} {T : Type}
    (this : VisionService.t) (operation : Operation T) :
  forall remaining attempt lastError w,
    exists tr,
      trace (snd (VisionService.retryLoop this operation remaining attempt lastError w))
      = (trace w ++ tr)%list
      /\ invocations tr <= remaining
      /\ (0 < remaining -> 1 <= invocations tr).
Proof.
  induction remaining as [|remaining IH]; intros attempt lastError [e tr0].
  - exists []. cbn [trace]. rewrite app_nil_r.
    destruct lastError; cbn; repeat split; auto; lia.
  - destruct (operation e) as [[v|t] e'] eqn:H.
    + rewrite (retryLoop_returned this operation remaining attempt lastError e tr0 v e' H).
      exists [EvInvoke]. cbn. repeat split; auto; lia.
    + destruct (VisionService.isRateLimit (toError t)
                && (Z.of_nat attempt <? Z.of_nat (VisionService.maxRetries this) - 1)%Z)
        eqn:Hc.
      * apply andb_true_iff in Hc. destruct Hc as [Hr Hlt]. apply Z.ltb_lt in Hlt.
        rewrite (retryLoop_retried this operation remaining attempt lastError
                   e tr0 t e' H Hr Hlt).
        match goal with
        | |- context [VisionService.retryLoop _ _ _ _ ?l ?w2] =>
            destruct (IH (S attempt) l w2) as [tr [Htr [Hle _]]]
        end.
        rewrite Htr. cbn [trace]. rewrite <- app_assoc.
        eexists. split; [reflexivity|].
        rewrite invocations_app. cbn [invocations]. lia.
      * rewrite (retryLoop_threw this operation remaining attempt lastError
                   e tr0 t e' H Hc).
        exists [EvInvoke]. cbn. repeat split; auto; lia.
Qed.

(** Whatever the operation does, the wrapper of a service built by the
    constructor invokes it at least once and at most three times. *)
Lemma withRetry_at_most_three_invocations {RT : Runtime} {T : Type}
    (config : AzureOpenAIConfig) (operation : Operation T) (w : World) :
  exists tr,
    trace (snd (VisionService.withRetry (VisionService.new config) operation w))
    = (trace w ++ tr)%list
    /\ 1 <= invocations tr <= 3.
Proof.
  destruct (retryLoop_trace (VisionService.new config) operation 3 0 None w)
    as [tr [Htr [Hle Hge]]].
  exists tr. split; [exact Htr|]. split; [apply Hge; lia | exact Hle].
Qed.

(** Whatever the operation does, the waits of the wrapper are none, 1000 ms,
    or 1000 ms followed by 2000 ms: no run waits 4000 ms. *)
Lemma withRetry_waits {RT : Runtime} {T : Type}
    (config : AzureOpenAIConfig) (operation : Operation T) (w : World) :
  exists tr,
    trace (snd (VisionService.withRetry (VisionService.new config) operation w))
    = (trace w ++ tr)%list
    /\ (sleeps tr = [] \/ sleeps tr = [1000]%Z \/ sleeps tr = [1000; 2000]%Z).
Proof.
  destruct w as [e0 tr0]. unfold VisionService.withRetry.
  cbn [VisionService.maxRetries VisionService.new trace].
  set (this := VisionService.new config).
  assert (Hlast : forall b, b && (Z.of_nat 2 <? Z.of_nat (VisionService.maxRetries this) - 1)%Z
                            = false) by (intros b; apply andb_false_r).
  destruct (operation e0) as [[v1|t1] e1] eqn:H1.
  { rewrite (retryLoop_returned this operation 2 0 None e0 tr0 v1 e1 H1).
    exists [EvInvoke]. split; [reflexivity | left; reflexivity]. }
  destruct (VisionService.isRateLimit (toError t1)) eqn:R1.
  2:{ rewrite (retryLoop_threw this operation 2 0 None e0 tr0 t1 e1 H1)
        by (rewrite R1; reflexivity).
      exists [EvInvoke]. split; [reflexivity | left; reflexivity]. }
  rewrite (retryLoop_retried this operation 2 0 None e0 tr0 t1 e1 H1 R1)
    by (cbn; lia).
  change (VisionService.baseDelay this * 2 ^ Z.of_nat 0)%Z with 1000%Z.
  destruct (operation (elapse 1000 e1)) as [[v2|t2] e2] eqn:H2.
  { rewrite (retryLoop_returned this operation 1 1 _ _ _ v2 e2 H2).
    cbn [snd trace]. rewrite <- app_assoc.
    eexists. split; [reflexivity | right; left; reflexivity]. }
  destruct (VisionService.isRateLimit (toError t2)) eqn:R2.
  2:{ rewrite (retryLoop_threw this operation 1 1 _ _ _ t2 e2 H2)
        by (rewrite R2; reflexivity).
      cbn [snd trace]. rewrite <- app_assoc.
      eexists. split; [reflexivity | right; left; reflexivity]. }
  rewrite (retryLoop_retried this operation 1 1 _ _ _ t2 e2 H2 R2) by (cbn; lia).
  change (VisionService.baseDelay this * 2 ^ Z.of_nat 1)%Z with 2000%Z.
  destruct (operation (elapse 2000 e2)) as [[v3|t3] e3] eqn:H3.
  { rewrite (retryLoop_returned this operation 0 2 _ _ _ v3 e3 H3).
    cbn [snd trace]. rewrite <- !app_assoc.
    eexists. split; [reflexivity | right; right; reflexivity]. }
  rewrite (retryLoop_threw this operation 0 2 _ _ _ t3 e3 H3) by apply Hlast.
  cbn [snd trace]. rewrite <- !app_assoc.
  eexists. split; [reflexivity | right; right; reflexivity].
Qed.

(** C1 (as amended).  When every invocation fails with a rate-limit error,
    [withRetry] of a service built by the constructor invokes the operation
    exactly three times, waits 1000 ms after the first failure and 2000 ms
    after the second (there is no third wait, so no wait of 4000 ms), and
    throws the error of the third invocation. *)
Theorem withRetry_rate_limited_three_attempts
    (RT : Runtime) (T : Type) (config : AzureOpenAIConfig)
    (operation : Operation T) (w : World) :
  alwaysRateLimited operation ->
  exists t1 e1 t2 e2 t3 e3 w',
    operation (env w) = (Threw t1, e1)
    /\ operation (elapse 1000 e1) = (Threw t2, e2)
    /\ operation (elapse 2000 e2) = (Threw t3, e3)
    /\ VisionService.withRetry (VisionService.new config) operation w
       = (Threw (ThrownError (toError t3)), w')
    /\ env w' = e3
    /\ trace w'
       = (trace w ++
            [EvInvoke;
             EvLog "Rate limited. Retrying in 1000ms (attempt 1/3)";
             EvSleep 1000;
             EvInvoke;
             EvLog "Rate limited. Retrying in 2000ms (attempt 2/3)";
             EvSleep 2000;
             EvInvoke])%list
    /\ invocations (trace w') = invocations (trace w) + 3
    /\ sleeps (trace w') = (sleeps (trace w) ++ [1000; 2000]%Z)%list.
Proof.
  intros Hrl. destruct w as [e0 tr0]. cbn [env trace].
  destruct (Hrl e0) as [t1 [e1 [H1 R1]]].
  destruct (Hrl (elapse 1000 e1)) as [t2 [e2 [H2 R2]]].
  destruct (Hrl (elapse 2000 e2)) as [t3 [e3 [H3 R3]]].
  exists t1, e1, t2, e2, t3, e3.
  eexists. split; [exact H1|]. split; [exact H2|]. split; [exact H3|].
  split.
  - unfold VisionService.withRetry. cbn [VisionService.maxRetries VisionService.new].
    rewrite (retryLoop_retried _ operation 2 0 None e0 tr0 t1 e1 H1 R1) by (cbn; lia).
    change (VisionService.baseDelay (VisionService.new config) * 2 ^ Z.of_nat 0)%Z
      with 1000%Z.
    rewrite (retryLoop_retried _ operation 1 1 _ _ _ t2 e2 H2 R2) by (cbn; lia).
    change (VisionService.baseDelay (VisionService.new config) * 2 ^ Z.of_nat 1)%Z
      with 2000%Z.
    rewrite (retryLoop_threw _ operation 0 2 _ _ _ t3 e3 H3)
      by (rewrite R3; reflexivity).
    rewrite <- !app_assoc. reflexivity.
  - cbn [env trace]. split; [reflexivity|]. split; [reflexivity|].
    rewrite invocations_app, sleeps_app. split; reflexivity.
Qed.

Lemma throttled_alwaysRateLimited : alwaysRateLimited Samples.throttled.
Proof.
  intros e. exists (ThrownError Samples.tooManyRequests), e.
  split; reflexivity.
Qed.

Lemma withRetry_rate_limited_three_attempts_witness :
  alwaysRateLimited Samples.throttled
  /\ exists w',
       VisionService.withRetry (VisionService.new Samples.config)
         Samples.throttled (Samples.start [])
       = (Threw (ThrownError Samples.tooManyRequests), w')
       /\ invocations (trace w') = 3
       /\ sleeps (trace w') = [1000; 2000]%Z.
Proof.
  split; [exact throttled_alwaysRateLimited|].
  destruct (withRetry_rate_limited_three_attempts Samples.scripted string
              Samples.config Samples.throttled (Samples.start [])
              throttled_alwaysRateLimited)
    as [t1 [e1 [t2 [e2 [t3 [e3 [w' [H1 [H2 [H3 [Hrun [He [Htr [Hinv Hsl]]]]]]]]]]]]]].
  exists w'. split; [|split; [exact Hinv | exact Hsl]].
  rewrite Hrun. injection H3 as <- _. reflexivity.
Defined.

(** C1 as the specification words it does not hold: on an operation that is
    rate limited at every call the waits are 1000 ms and 2000 ms only; the
    third attempt is the last one and is followed by no wait. *)
Lemma withRetry_no_third_wait :
  alwaysRateLimited Samples.throttled
  /\ sleeps (trace (snd (VisionService.withRetry (VisionService.new Samples.config)
                           Samples.throttled (Samples.start []))))
     = [1000; 2000]%Z
  /\ ~ backoffAsSpecified
         (trace (snd (VisionService.withRetry (VisionService.new Samples.config)
                        Samples.throttled (Samples.start [])))).
Proof.
  split; [exact throttled_alwaysRateLimited|].
  split; [reflexivity|].
  intros [_ H]. vm_compute in H. discriminate H.
Qed.

(** C2.  At every iteration of the loop of [withRetry] (so at every
    invocation the wrapper makes): when the invocation succeeds its result is
    returned unchanged; when it fails with an [Error] that is not identified
    as a rate limit, that very error is thrown; in both cases the trace ends
    with this invocation, so the operation is not invoked again.  A thrown
    value that is not an [Error] is propagated wrapped in one. *)
Theorem withRetry_success_and_other_failure
    (RT : Runtime) (T : Type) (this : VisionService.t) (operation : Operation T)
    (remaining attempt : nat) (lastError : option JsError) (w : World) :
  (forall v e',
      operation (env w) = (Returned v, e') ->
      VisionService.retryLoop this operation (S remaining) attempt lastError w
      = (Returned v, mkWorld e' (trace w ++ [EvInvoke])))
  /\ (forall err e',
      operation (env w) = (Threw (ThrownError err), e') ->
      VisionService.isRateLimit err = false ->
      VisionService.retryLoop this operation (S remaining) attempt lastError w
      = (Threw (ThrownError err), mkWorld e' (trace w ++ [EvInvoke])))
  /\ (forall repr e',
      operation (env w) = (Threw (ThrownValue repr), e') ->
      VisionService.isRateLimit (newError repr) = false ->
      VisionService.retryLoop this operation (S remaining) attempt lastError w
      = (Threw (ThrownError (newError repr)), mkWorld e' (trace w ++ [EvInvoke]))).
Proof.
  destruct w as [e tr]. cbn [env trace]. repeat split.
  - intros v e' H. apply retryLoop_returned. exact H.
  - intros err e' H Hr.
    apply (retryLoop_threw this operation remaining attempt lastError e tr _ e' H).
    cbn [toError]. rewrite Hr. reflexivity.
  - intros repr e' H Hr.
    apply (retryLoop_threw this operation remaining attempt lastError e tr _ e' H).
    cbn [toError]. rewrite Hr. reflexivity.
Qed.

Lemma withRetry_success_and_other_failure_witness :
  VisionService.withRetry (VisionService.new Samples.config)
    Samples.succeeding (Samples.start [])
  = (Returned "a cat on a sofa", @mkWorld Samples.scripted [] [EvInvoke])
  /\ VisionService.withRetry (VisionService.new Samples.config)
       Samples.refused (Samples.start [])
     = (Threw (ThrownError Samples.unauthorized),
        @mkWorld Samples.scripted [] [EvInvoke])
  /\ VisionService.withRetry (VisionService.new Samples.config)
       Samples.throwingText (Samples.start [])
     = (Threw (ThrownError (newError "socket hang up")),
        @mkWorld Samples.scripted [] [EvInvoke]).
Proof.
  split; [|split].
  - apply (proj1 (withRetry_success_and_other_failure Samples.scripted string
                    (VisionService.new Samples.config) Samples.succeeding
                    2 0 None (Samples.start []))).
    reflexivity.
  - apply (proj1 (proj2 (withRetry_success_and_other_failure Samples.scripted string
                    (VisionService.new Samples.config) Samples.refused
                    2 0 None (Samples.start [])))); reflexivity.
  - apply (proj2 (proj2 (withRetry_success_and_other_failure Samples.scripted string
                    (VisionService.new Samples.config) Samples.throwingText
                    2 0 None (Samples.start [])))); reflexivity.
Defined.

(** C8.  The detection of a rate limit reads the message of the error and
    nothing else: it holds exactly when the message contains [429] or, up to
    the case of letters, [rate limit]; two errors with the same message are
    treated alike whatever their class and HTTP status; and while attempts
    remain, a failed invocation is followed by another invocation exactly when
    the detection holds. *)
Theorem rate_limit_detection_is_textual :
  (forall e,
      VisionService.isRateLimit e = true
      <-> contains (message e) "429" \/ containsIgnoringCase (message e) "rate limit")
  /\ (forall cls1 cls2 msg,
      VisionService.isRateLimit (mkError cls1 msg)
      = VisionService.isRateLimit (mkError cls2 msg))
  /\ (forall (RT : Runtime) (T : Type) (this : VisionService.t)
             (operation : Operation T) remaining attempt lastError w t e',
      attempt + S remaining = VisionService.maxRetries this ->
      (Z.of_nat attempt < Z.of_nat (VisionService.maxRetries this) - 1)%Z ->
      operation (env w) = (Threw t, e') ->
      (VisionService.isRateLimit (toError t) = true
       <-> invocations (trace w) + 2
           <= invocations
                (trace (snd (VisionService.retryLoop this operation (S remaining)
                               attempt lastError w))))).
Proof.
  split; [|split].
  - intros e. unfold VisionService.isRateLimit.
    rewrite orb_true_iff, includes_iff, includes_toLowerCase_iff by reflexivity.
    reflexivity.
  - reflexivity.
  - intros RT T this operation remaining attempt lastError [e tr0] t e' Hinv Hlt H.
    cbn [env trace] in *. split.
    + intros Hr.
      rewrite (retryLoop_retried this operation remaining attempt lastError
                 e tr0 t e' H Hr Hlt).
      match goal with
      | |- context [VisionService.retryLoop _ _ _ _ ?l ?w2] =>
          destruct (retryLoop_trace this operation remaining (S attempt) l w2)
            as [tr [Htr [_ Hge]]]
      end.
      rewrite Htr. cbn [trace]. rewrite !invocations_app. cbn [invocations].
      assert (0 < remaining) by lia. specialize (Hge H0). lia.
    + intros Hcount.
      destruct (VisionService.isRateLimit (toError t)) eqn:Hr; [reflexivity|].
      rewrite (retryLoop_threw this operation remaining attempt lastError
                 e tr0 t e' H) in Hcount by (rewrite Hr; reflexivity).
      cbn [snd trace] in Hcount. rewrite invocations_app in Hcount.
      cbn [invocations] in Hcount. lia.
Qed.

Lemma rate_limit_detection_is_textual_witness :
  VisionService.isRateLimit (toError (ThrownError Samples.tooManyRequests)) = true
  <-> 0 + 2
      <= invocations
           (trace (snd (VisionService.retryLoop (VisionService.new Samples.config)
                          Samples.throttled 3 0 None (Samples.start [])))).
Proof.
  apply (proj2 (proj2 rate_limit_detection_is_textual) Samples.scripted string
           (VisionService.new Samples.config) Samples.throttled 2 0 None
           (Samples.start []) (ThrownError Samples.tooManyRequests) []).
  - reflexivity.
  - simpl. lia.
  - reflexivity.
Defined.

(** An error that is no rate limit, but whose message holds the digits 429,
    is retried all the same. *)
Example digits_429_are_enough :
  VisionService.isRateLimit
    (mkError (APIError 404) "404 Deployment img-4290 not found") = true.
Proof. reflexivity. Qed.

(** ** The vision service *)

Section Service.
Context {RT : Runtime}.
Variable this : VisionService.t.
Variables (imageBuffer : list Byte.byte) (mimeType prompt : string).
Variables (maxTokens : Z) (msg : string).

Import VisionService.

(** One call of the API that answers, seen through the retry wrapper: the
    content is extracted and no further call is made, provided the message
    for a missing content is not itself read as a rate limit. *)
Lemma withRetry_on_response n e tr response e' :
  maxRetries this = S n ->
  isRateLimit (newError msg) = false ->
  chatCompletionsCreate (client this)
    (chatRequest this imageBuffer mimeType prompt maxTokens) e
  = (Returned response, e') ->
  withRetry this (captionOperation this imageBuffer mimeType prompt maxTokens msg)
    (mkWorld e tr)
  = (extractCaption (firstContent response) msg, mkWorld e' (tr ++ [EvInvoke])).
Proof.
  intros Hn Hmsg Hcall. unfold withRetry. rewrite Hn.
  assert (Hop : captionOperation this imageBuffer mimeType prompt maxTokens msg e
                = (extractCaption (firstContent response) msg, e')).
  { unfold captionOperation. rewrite Hcall. reflexivity. }
  destruct (extractCaption (firstContent response) msg) as [v|t] eqn:Hx.
  - apply retryLoop_returned. exact Hop.
  - assert (Ht : t = ThrownError (newError msg)).
    { unfold extractCaption in Hx. destruct (firstContent response) as [c|].
      - destruct (String.eqb c ""); congruence.
      - congruence. }
    subst t.
    rewrite (retryLoop_threw this _ n 0 None e tr _ e' Hop)
      by (cbn [toError]; rewrite Hmsg; reflexivity).
    reflexivity.
Qed.

End Service.

Lemma extractCaption_some (c msg : string) :
  c <> "" -> VisionService.extractCaption (Some c) msg = Returned (trim c).
Proof.
  intros H. unfold VisionService.extractCaption.
  destruct (String.eqb_spec c ""); [contradiction | reflexivity].
Qed.

Lemma extractCaption_none (caption : option string) (msg : string) :
  caption = None \/ caption = Some "" ->
  VisionService.extractCaption caption msg = Threw (ThrownError (newError msg)).
Proof. intros [->| ->]; reflexivity. Qed.

(** A value returned by the retry wrapper is the value returned by one of the
    invocations. *)
Lemma retryLoop_returns {RT : Runtime} {T : Type}
    (this : VisionService.t) (operation : Operation T) :
  forall remaining attempt lastError w v w',
    VisionService.retryLoop this operation remaining attempt lastError w
    = (Returned v, w') ->
    exists e e', operation e = (Returned v, e').
Proof.
  induction remaining as [|remaining IH]; intros attempt lastError [e tr0] v w' H.
  - destruct lastError; discriminate H.
  - destruct (operation e) as [[v0|t0] e'] eqn:Hop.
    + rewrite (retryLoop_returned this operation remaining attempt lastError
                 e tr0 v0 e' Hop) in H.
      injection H as <- _. eauto.
    + destruct (VisionService.isRateLimit (toError t0)
                && (Z.of_nat attempt <? Z.of_nat (VisionService.maxRetries this) - 1)%Z)
        eqn:Hc.
      * apply andb_true_iff in Hc. destruct Hc as [Hr Hlt]. apply Z.ltb_lt in Hlt.
        rewrite (retryLoop_retried this operation remaining attempt lastError
                   e tr0 t0 e' Hop Hr Hlt) in H.
        exact (IH _ _ _ _ _ H).
      * rewrite (retryLoop_threw this operation remaining attempt lastError
                   e tr0 t0 e' Hop Hc) in H.
        discriminate H.
Qed.

(** A value returned by the operation of the two methods is the trimmed,
    non-empty content of a model answer. *)
Lemma captionOperation_returns {RT : Runtime} (this : VisionService.t)
    (imageBuffer : list Byte.byte) (mimeType prompt : string) (maxTokens : Z)
    (msg : string) (e : Env) (v : string) (e' : Env) :
  VisionService.captionOperation this imageBuffer mimeType prompt maxTokens msg e
  = (Returned v, e') ->
  exists response c,
    chatCompletionsCreate (VisionService.client this)
      (VisionService.chatRequest this imageBuffer mimeType prompt maxTokens) e
    = (Returned response, e')
    /\ VisionService.firstContent response = Some c
    /\ c <> ""
    /\ v = trim c.
Proof.
  unfold VisionService.captionOperation.
  destruct (chatCompletionsCreate _ _ e) as [[response|t] e1] eqn:Hcall;
    [|discriminate].
  unfold VisionService.extractCaption.
  destruct (VisionService.firstContent response) as [c|] eqn:Hc; [|discriminate].
  destruct (String.eqb_spec c ""); [discriminate|].
  intros H. injection H as <- <-. exists response, c. repeat split; auto.
Qed.

(** Whatever the attempt at which it was obtained, a value returned by one
    of the two methods is the trimmed, non-empty content of a model answer. *)
Lemma generate_returns_content {RT : Runtime} (this : VisionService.t)
    (imageBuffer : list Byte.byte) (mimeType customPrompt : string)
    (w : World) (v : string) (w' : World) :
  (VisionService.generateCaption this imageBuffer mimeType w = (Returned v, w') ->
   exists e response e' c,
     chatCompletionsCreate (VisionService.client this)
       (VisionService.chatRequest this imageBuffer mimeType
          VisionService.defaultPrompt 300) e
     = (Returned response, e')
     /\ VisionService.firstContent response = Some c /\ c <> "" /\ v = trim c)
  /\ (VisionService.generateCaptionWithPrompt this imageBuffer mimeType customPrompt w
      = (Returned v, w') ->
      exists e response e' c,
        chatCompletionsCreate (VisionService.client this)
          (VisionService.chatRequest this imageBuffer mimeType customPrompt 500) e
        = (Returned response, e')
        /\ VisionService.firstContent response = Some c /\ c <> "" /\ v = trim c).
Proof.
  split.
  - unfold VisionService.generateCaption, tryCatch, VisionService.withRetry.
    destruct (VisionService.retryLoop _ _ _ _ _ w) as [[v0|t0] w0] eqn:Hrun.
    + intros H. injection H as <- _.
      destruct (retryLoop_returns _ _ _ _ _ _ _ _ Hrun) as [e [e' Hop]].
      destruct (captionOperation_returns _ _ _ _ _ _ _ _ _ Hop)
        as [response [c Hc]].
      exists e, response, e', c. exact Hc.
    + unfold bind, consoleError, emit, throw.
      destruct t0 as [err|repr]; [|discriminate].
      destruct (includes (message err) "401"); [discriminate|].
      destruct (includes (message err) "404"); [discriminate|].
      destruct (includes (message err) "429"); discriminate.
  - unfold VisionService.generateCaptionWithPrompt, tryCatch, VisionService.withRetry.
    destruct (VisionService.retryLoop _ _ _ _ _ w) as [[v0|t0] w0] eqn:Hrun.
    + intros H. injection H as <- _.
      destruct (retryLoop_returns _ _ _ _ _ _ _ _ Hrun) as [e [e' Hop]].
      destruct (captionOperation_returns _ _ _ _ _ _ _ _ _ Hop)
        as [response [c Hc]].
      exists e, response, e', c. exact Hc.
    + unfold bind, consoleError, emit, throw.
      destruct t0 as [err|repr]; [|discriminate].
      destruct (includes (message err) "429"); discriminate.
Qed.

(** A first answer with a content: both methods return it trimmed. *)
Lemma generate_on_content {RT : Runtime} (this : VisionService.t) (n : nat)
    (imageBuffer : list Byte.byte) (mimeType customPrompt : string)
    (e : Env) (tr : list Event) (response : ChatCompletion) (e' : Env) (c : string) :
  VisionService.maxRetries this = S n ->
  VisionService.firstContent response = Some c ->
  c <> "" ->
  (chatCompletionsCreate (VisionService.client this)
     (VisionService.chatRequest this imageBuffer mimeType
        VisionService.defaultPrompt 300) e
   = (Returned response, e') ->
   VisionService.generateCaption this imageBuffer mimeType (mkWorld e tr)
   = (Returned (trim c), mkWorld e' (tr ++ [EvInvoke])))
  /\ (chatCompletionsCreate (VisionService.client this)
        (VisionService.chatRequest this imageBuffer mimeType customPrompt 500) e
      = (Returned response, e') ->
      VisionService.generateCaptionWithPrompt this imageBuffer mimeType customPrompt
        (mkWorld e tr)
      = (Returned (trim c), mkWorld e' (tr ++ [EvInvoke]))).
Proof.
  intros Hn Hc Hne. split; intros Hcall.
  - unfold VisionService.generateCaption, tryCatch.
    rewrite (withRetry_on_response this imageBuffer mimeType
               VisionService.defaultPrompt 300
               "No caption generated from the AI model" n e tr
               response e' Hn eq_refl Hcall).
    rewrite Hc, extractCaption_some by exact Hne. reflexivity.
  - unfold VisionService.generateCaptionWithPrompt, tryCatch.
    rewrite (withRetry_on_response this imageBuffer mimeType
               customPrompt 500
               "No response generated from the AI model" n e tr
               response e' Hn eq_refl Hcall).
    rewrite Hc, extractCaption_some by exact Hne. reflexivity.
Qed.

(** C7.  When the model answers, [generateCaption] and
    [generateCaptionWithPrompt] return the content of the first choice with
    its leading and trailing white space removed, after a single call; when
    the answer has no content (no choice, no message, a null or an empty
    content) they throw an error.  Whatever the attempt at which it is
    obtained, a value they return is the trimmed, non-empty content of a
    model answer. *)
Theorem captions_are_the_trimmed_content
    (RT : Runtime) (config : AzureOpenAIConfig)
    (imageBuffer : list Byte.byte) (mimeType customPrompt : string)
    (w : World) (response : ChatCompletion) (e' : Env) :
  let this := VisionService.new config in
  (chatCompletionsCreate (VisionService.client this)
     (VisionService.chatRequest this imageBuffer mimeType
        VisionService.defaultPrompt 300) (env w)
   = (Returned response, e') ->
   (forall c, VisionService.firstContent response = Some c -> c <> "" ->
      VisionService.generateCaption this imageBuffer mimeType w
      = (Returned (trim c), mkWorld e' (trace w ++ [EvInvoke]))
      /\ Trimmed c (trim c))
   /\ (VisionService.firstContent response = None
       \/ VisionService.firstContent response = Some "" ->
       exists w',
         VisionService.generateCaption this imageBuffer mimeType w
         = (Threw (ThrownError (newError
              "Failed to generate caption: No caption generated from the AI model")),
            w')
         /\ invocations (trace w') = invocations (trace w) + 1))
  /\
  (chatCompletionsCreate (VisionService.client this)
     (VisionService.chatRequest this imageBuffer mimeType customPrompt 500) (env w)
   = (Returned response, e') ->
   (forall c, VisionService.firstContent response = Some c -> c <> "" ->
      VisionService.generateCaptionWithPrompt this imageBuffer mimeType customPrompt w
      = (Returned (trim c), mkWorld e' (trace w ++ [EvInvoke]))
      /\ Trimmed c (trim c))
   /\ (VisionService.firstContent response = None
       \/ VisionService.firstContent response = Some "" ->
       exists w',
         VisionService.generateCaptionWithPrompt this imageBuffer mimeType
           customPrompt w
         = (Threw (ThrownError (newError "No response generated from the AI model")),
            w')
         /\ invocations (trace w') = invocations (trace w) + 1))
  /\
  (forall v w1,
      VisionService.generateCaption this imageBuffer mimeType w = (Returned v, w1) ->
      exists e1 answer e2 c,
        chatCompletionsCreate (VisionService.client this)
          (VisionService.chatRequest this imageBuffer mimeType
             VisionService.defaultPrompt 300) e1
        = (Returned answer, e2)
        /\ VisionService.firstContent answer = Some c
        /\ c <> "" /\ v = trim c /\ Trimmed c v)
  /\
  (forall v w1,
      VisionService.generateCaptionWithPrompt this imageBuffer mimeType
        customPrompt w = (Returned v, w1) ->
      exists e1 answer e2 c,
        chatCompletionsCreate (VisionService.client this)
          (VisionService.chatRequest this imageBuffer mimeType customPrompt 500) e1
        = (Returned answer, e2)
        /\ VisionService.firstContent answer = Some c
        /\ c <> "" /\ v = trim c /\ Trimmed c v).
Proof.
  intros this. split; [|split; [|split]].
  3:{ intros v w1 H.
      destruct (proj1 (generate_returns_content this imageBuffer mimeType
                         customPrompt w v w1) H)
        as [e1 [answer [e2 [c [Hcall [Hc [Hne ->]]]]]]].
      exists e1, answer, e2, c. repeat split; auto. apply trim_Trimmed. }
  3:{ intros v w1 H.
      destruct (proj2 (generate_returns_content this imageBuffer mimeType
                         customPrompt w v w1) H)
        as [e1 [answer [e2 [c [Hcall [Hc [Hne ->]]]]]]].
      exists e1, answer, e2, c. repeat split; auto. apply trim_Trimmed. }
  all: destruct w as [e tr]; cbn [env trace]; intros Hcall; split.
  - intros c Hc Hne. split; [|apply trim_Trimmed].
    exact (proj1 (generate_on_content this 2 imageBuffer mimeType customPrompt
                    e tr response e' c eq_refl Hc Hne) Hcall).
  - intros Hnone. eexists.
    unfold VisionService.generateCaption, tryCatch.
    rewrite (withRetry_on_response this imageBuffer mimeType
               VisionService.defaultPrompt 300
               "No caption generated from the AI model" 2 e tr
               response e' eq_refl eq_refl Hcall).
    rewrite extractCaption_none by exact Hnone.
    split; [reflexivity|].
    cbn [trace]. rewrite !invocations_app. cbn. lia.
  - intros c Hc Hne. split; [|apply trim_Trimmed].
    exact (proj2 (generate_on_content this 2 imageBuffer mimeType customPrompt
                    e tr response e' c eq_refl Hc Hne) Hcall).
  - intros Hnone. eexists.
    unfold VisionService.generateCaptionWithPrompt, tryCatch.
    rewrite (withRetry_on_response this imageBuffer mimeType
               customPrompt 500
               "No response generated from the AI model" 2 e tr
               response e' eq_refl eq_refl Hcall).
    rewrite extractCaption_none by exact Hnone.
    split; [reflexivity|].
    cbn [trace]. rewrite !invocations_app. cbn. lia.
Qed.

Lemma captions_are_the_trimmed_content_witness :
  VisionService.generateCaption (VisionService.new Samples.config)
    Samples.image "image/jpeg"
    (Samples.start [Returned (Samples.completionOf "  A cat on a sofa. ")])
  = (Returned "A cat on a sofa.", @mkWorld Samples.scripted [] [EvInvoke])
  /\ Trimmed "  A cat on a sofa. " "A cat on a sofa.".
Proof.
  apply (proj1 (proj1 (captions_are_the_trimmed_content Samples.scripted
                         Samples.config Samples.image "image/jpeg" ""
                         (Samples.start [Returned (Samples.completionOf "  A cat on a sofa. ")])
                         (Samples.completionOf "  A cat on a sofa. ") [])
                  eq_refl)
           "  A cat on a sofa. " eq_refl).
  discriminate.
Defined.

(** ** The caption router *)

Import CaptionRoute.

Lemma supported_iff (mime : string) :
  supported mime = true <-> In mime SUPPORTED_IMAGE_TYPES.
Proof.
  unfold supported. rewrite existsb_exists. split.
  - intros [x [Hin Heq]]. apply String.eqb_eq in Heq. subst. exact Hin.
  - intros H. exists mime. split; [exact H | apply String.eqb_refl].
Qed.

Lemma falsy_iff (v : option string) : falsy v = true <-> unset v.
Proof.
  unfold falsy, unset. destruct v as [s|].
  - rewrite String.eqb_eq. split; [intros ->; auto | intros [H|H]; congruence].
  - split; auto.
Qed.

(** A valid image passes the upload middleware and becomes [req.file]. *)
Lemma uploadSingle_valid (form : Multipart) (part : FilePart) :
  imagePart form = Some part -> validImage part ->
  uploadSingle form
  = UploadDone (mkRequest (Some (mkFile (partData part) (partMimetype part)))
                  (promptField form)).
Proof.
  intros Hpart [Hs [Hpos Hle]]. unfold uploadSingle, fileFilter.
  rewrite Hpart, Hs.
  destruct (N.ltb_spec fileSize (N.of_nat (length (partData part)))); [lia|].
  reflexivity.
Qed.

Lemma validateFile_valid (part : FilePart) :
  validImage part ->
  validateFile (Some (mkFile (partData part) (partMimetype part)))
  = mkValidation true None.
Proof.
  intros [Hs [Hpos Hle]]. unfold validateFile. cbn [buffer mimetype].
  destruct (Nat.eqb_spec (length (partData part)) 0); [lia|].
  rewrite Hs. reflexivity.
Qed.

Lemma blankPrompt_test (v : option string) :
  blankPrompt v ->
  falsy v || (String.length (trim (narrowed v)) =? 0)%nat = true.
Proof.
  intros [->|[->|[p [-> Hp]]]]; try reflexivity.
  cbn [narrowed]. rewrite (WhiteSpaceOnly_trim p Hp). apply orb_true_r.
Qed.

(** C6.  A request to POST /api/caption/custom with a valid image and a
    prompt that is missing, empty or made of white space only is answered
    with status 400, [success:false] and the error text
    [Custom prompt is required]; the world is left as it was, so the vision
    service is not invoked. *)
Theorem custom_prompt_is_required
    (RT : Runtime) (processEnv : ProcessEnv) (now : string)
    (form : Multipart) (part : FilePart) (w : World) :
  imagePart form = Some part ->
  validImage part ->
  blankPrompt (promptField form) ->
  router processEnv now PostCustom form w
  = (Returned (mkResponse 400 (errorBody now "Custom prompt is required")), w).
Proof.
  intros Hpart Hvalid Hblank. unfold router.
  rewrite (uploadSingle_valid form part Hpart Hvalid).
  unfold postCustom, tryCatch. cbn [file prompt].
  rewrite (validateFile_valid part Hvalid). cbn [isValid negb].
  rewrite (blankPrompt_test _ Hblank). reflexivity.
Qed.

Lemma jpeg_validImage : validImage Samples.jpeg.
Proof. repeat split; [cbn; lia | vm_compute; discriminate]. Qed.

Lemma custom_prompt_is_required_witness :
  router Samples.configured Samples.noon PostCustom Samples.blankPromptForm
    (Samples.start [])
  = (Returned (mkResponse 400 (errorBody Samples.noon "Custom prompt is required")),
     Samples.start []).
Proof.
  apply (custom_prompt_is_required Samples.scripted Samples.configured Samples.noon
           Samples.blankPromptForm Samples.jpeg (Samples.start [])).
  - reflexivity.
  - exact jpeg_validImage.
  - right. right. exists "  ". split; [reflexivity|].
    apply (Tokens_cons whiteSpace " " " "); [vm_compute; tauto|].
    apply (Tokens_cons whiteSpace " " ""); [vm_compute; tauto|].
    constructor.
Defined.


(** A request without a file, or with an empty file of a supported type, is
    answered with status 400 by both POST routes. *)
Lemma missing_or_empty_file_answers_400 {RT : Runtime}
    (processEnv : ProcessEnv) (now : string) (route : Route)
    (form : Multipart) (w : World) :
  route <> GetHealth ->
  (imagePart form = None ->
   router processEnv now route form w
   = (Returned (mkResponse 400 (errorBody now "No image file provided")), w))
  /\ (forall mime, imagePart form = Some (mkPart mime []) -> supported mime = true ->
      router processEnv now route form w
      = (Returned (mkResponse 400 (errorBody now "Empty file uploaded")), w)).
Proof.
  intros Hroute. split.
  - intros Hnone. destruct route; try contradiction;
      unfold router, uploadSingle; rewrite Hnone; reflexivity.
  - intros mime Hpart Hs. destruct route; try contradiction;
      unfold router, uploadSingle, fileFilter; rewrite Hpart;
      cbn [partMimetype partData]; rewrite Hs; reflexivity.
Qed.

(** C4, where the sources depart from it.  A file whose MIME type is outside
    the allow-list is refused by [fileFilter] with a plain [Error]; the error
    middleware answers a plain [Error] with status 500, not 400.  The response
    has [success:false] and an error text, and the world is left as it was. *)
Theorem unsupported_type_answers_500
    (RT : Runtime) (processEnv : ProcessEnv) (now : string) (route : Route)
    (form : Multipart) (part : FilePart) (w : World) :
  route <> GetHealth ->
  imagePart form = Some part ->
  supported (partMimetype part) = false ->
  router processEnv now route form w
  = (Returned (mkResponse 500
       (errorBody now
          "Invalid file type. Supported types: image/jpeg, image/png, image/gif, image/webp")),
     w).
Proof.
  intros Hroute Hpart Hs.
  destruct route; try contradiction;
    unfold router, uploadSingle, fileFilter; rewrite Hpart, Hs; reflexivity.
Qed.

Lemma unsupported_type_answers_500_witness :
  router Samples.configured Samples.noon PostCaption Samples.textForm
    (Samples.start [])
  = (Returned (mkResponse 500
       (errorBody Samples.noon
          "Invalid file type. Supported types: image/jpeg, image/png, image/gif, image/webp")),
     Samples.start []).
Proof.
  apply (unsupported_type_answers_500 Samples.scripted Samples.configured
           Samples.noon PostCaption Samples.textForm Samples.textFile
           (Samples.start [])).
  - discriminate.
  - reflexivity.
  - reflexivity.
Defined.

(** C3, where the sources depart from it.  The content of the model is
    tested for emptiness before it is trimmed: when the model answers with
    blanks only, the request succeeds with status 200, [success:true] and the
    empty caption. *)
Theorem blank_content_gives_empty_caption :
  fst (router Samples.configured Samples.noon PostCaption Samples.jpegForm
         (Samples.start [Returned (Samples.completionOf " ")]))
  = Returned (mkResponse 200
                (CaptionJson (mkCaptionResponse true (Some "") None Samples.noon)))
  /\ fst (router Samples.configured Samples.noon PostCustom Samples.promptForm
            (Samples.start [Returned (Samples.completionOf " ")]))
     = Returned (mkResponse 200
                   (CaptionJson (mkCaptionResponse true (Some "") None Samples.noon))).
Proof. split; vm_compute; reflexivity. Qed.

(** What the retry wrapper throws is an [Error] object, unless the loop was
    not entered at all. *)
Lemma retryLoop_throws_error {RT : Runtime} {T : Type}
    (this : VisionService.t) (operation : Operation T) :
  forall remaining attempt lastError w t w',
    VisionService.retryLoop this operation remaining attempt lastError w = (Threw t, w') ->
    (exists e, t = ThrownError e) \/ (remaining = 0 /\ lastError = None).
Proof.
  induction remaining as [|remaining IH]; intros attempt lastError [e tr0] t w' H.
  - destruct lastError as [err|]; [left | right; auto].
    cbn in H. injection H as <- _. eauto.
  - left. destruct (operation e) as [[v|t0] e'] eqn:Hop.
    + rewrite (retryLoop_returned this operation remaining attempt lastError
                 e tr0 v e' Hop) in H. discriminate.
    + destruct (VisionService.isRateLimit (toError t0)
                && (Z.of_nat attempt <? Z.of_nat (VisionService.maxRetries this) - 1)%Z)
        eqn:Hc.
      * apply andb_true_iff in Hc. destruct Hc as [Hr Hlt]. apply Z.ltb_lt in Hlt.
        rewrite (retryLoop_retried this operation remaining attempt lastError
                   e tr0 t0 e' Hop Hr Hlt) in H.
        apply IH in H. destruct H as [H|[_ H]]; [exact H | discriminate].
      * rewrite (retryLoop_threw this operation remaining attempt lastError
                   e tr0 t0 e' Hop Hc) in H.
        injection H as <- _. eauto.
Qed.

(** When [generateCaption] fails it throws an [Error] with one of four
    descriptive messages. *)
Lemma generateCaption_failure_described {RT : Runtime}
    (config : AzureOpenAIConfig) (imageBuffer : list Byte.byte) (mimeType : string)
    (w : World) (t : Thrown) (w' : World) :
  VisionService.generateCaption (VisionService.new config) imageBuffer mimeType w
  = (Threw t, w') ->
  exists m,
    t = ThrownError (newError m)
    /\ (m = "Invalid API key or unauthorized access"
        \/ m = "Model deployment not found"
        \/ m = VisionService.rateLimitedMessage
        \/ exists cause, m = "Failed to generate caption: " ++ cause).
Proof.
  unfold VisionService.generateCaption, tryCatch, VisionService.withRetry.
  destruct (VisionService.retryLoop _ _ _ _ _ w) as [[v|t0] w0] eqn:Hrun;
    [discriminate|].
  apply retryLoop_throws_error in Hrun.
  destruct Hrun as [[e ->]|[Hz _]]; [|discriminate Hz].
  unfold bind, consoleError, emit, throw.
  destruct (includes (message e) "401");
    [intros H; injection H as <- _; eexists; split; [reflexivity | tauto]|].
  destruct (includes (message e) "404");
    [intros H; injection H as <- _; eexists; split; [reflexivity | tauto]|].
  destruct (includes (message e) "429");
    intros H; injection H as <- _; eexists; (split; [reflexivity|]).
  - tauto.
  - right. right. right. exists (message e). reflexivity.
Qed.

(** When the vision service fails, the two POST handlers answer with status
    500, [success:false] and the message of the error. *)
Lemma service_failure_answers_500 {RT : Runtime}
    (processEnv : ProcessEnv) (now : string) (req : Request) (f : MulterFile)
    (w : World) (vs : VisionService.t) (t : Thrown) (w' : World) :
  file req = Some f ->
  isValid (validateFile (file req)) = true ->
  getVisionService processEnv w = (Returned vs, w) ->
  (VisionService.generateCaption vs (buffer f) (mimetype f) w = (Threw t, w') ->
   postCaption processEnv now req w
   = (Returned (mkResponse 500 (errorBody now (caughtMessage t))),
      mkWorld (env w') (trace w' ++ [EvConsoleError "Caption generation error:" t])))
  /\ (falsy (prompt req)
        || (String.length (trim (narrowed (prompt req))) =? 0)%nat = false ->
      VisionService.generateCaptionWithPrompt vs (buffer f) (mimetype f)
        (trim (narrowed (prompt req))) w = (Threw t, w') ->
      postCustom processEnv now req w
      = (Returned (mkResponse 500 (errorBody now (caughtMessage t))),
         mkWorld (env w') (trace w' ++ [EvConsoleError "Caption generation error:" t]))).
Proof.
  intros Hf Hv Hvs. split.
  - intros Hgen. unfold postCaption, tryCatch. rewrite Hv. cbn [negb].
    rewrite Hf. unfold bind at 1. cbn [fileOrTypeError ret].
    unfold bind at 1. rewrite Hvs. unfold bind at 1. rewrite Hgen.
    reflexivity.
  - intros Hp Hgen. unfold postCustom, tryCatch. rewrite Hv. cbn [negb].
    rewrite Hp. rewrite Hf. unfold bind at 1. cbn [fileOrTypeError ret].
    unfold bind at 1. rewrite Hvs. unfold bind at 1. rewrite Hgen.
    reflexivity.
Qed.

(** C5, where the sources depart from it.  An upload above the size limit is
    answered with status 400 when its MIME type is on the allow-list; when it
    is not, [fileFilter] refuses the file before its size is looked at and
    the answer has status 500. *)
Theorem oversized_upload_answers
    (RT : Runtime) (processEnv : ProcessEnv) (now : string) (route : Route)
    (form : Multipart) (part : FilePart) (w : World) :
  route <> GetHealth ->
  imagePart form = Some part ->
  (fileSize < N.of_nat (length (partData part)))%N ->
  (supported (partMimetype part) = true ->
   router processEnv now route form w
   = (Returned (mkResponse 400 (errorBody now "File size exceeds the 10MB limit")), w))
  /\ (supported (partMimetype part) = false ->
      router processEnv now route form w
      = (Returned (mkResponse 500
           (errorBody now
              "Invalid file type. Supported types: image/jpeg, image/png, image/gif, image/webp")),
         w)).
Proof.
  intros Hroute Hpart Hbig. apply N.ltb_lt in Hbig. split; intros Hs;
    destruct route; try contradiction;
    unfold router, uploadSingle, fileFilter; rewrite Hpart, Hs, ?Hbig; reflexivity.
Qed.

Lemma oversized_is_above_the_limit :
  (fileSize < N.of_nat (length Samples.oversized))%N.
Proof.
  unfold Samples.oversized. rewrite repeat_length, N2Nat.id. reflexivity.
Qed.

Lemma oversized_upload_answers_witness :
  router Samples.configured Samples.noon PostCaption Samples.oversizedTextForm
    (Samples.start [])
  = (Returned (mkResponse 500
       (errorBody Samples.noon
          "Invalid file type. Supported types: image/jpeg, image/png, image/gif, image/webp")),
     Samples.start []).
Proof.
  apply (proj2 (oversized_upload_answers Samples.scripted Samples.configured
                  Samples.noon PostCaption Samples.oversizedTextForm
                  (mkPart "text/plain" Samples.oversized) (Samples.start [])
                  ltac:(discriminate) eq_refl oversized_is_above_the_limit)).
  reflexivity.
Defined.

(** ** The response envelope *)

Ltac envelope :=
  eexists; split; [reflexivity|]; cbn;
  repeat split; intros; try discriminate; try congruence; try lia.

Lemma errorMiddleware_envelope {RT : Runtime} (now : string) (error : JsError) (w : World) :
  exists res, errorMiddleware now error w = (Returned res, w) /\ envelopeOk now res.
Proof.
  unfold errorMiddleware, envelopeOk.
  destruct (errorClass error) as [|code|st].
  - eexists. split; [reflexivity|]. envelope.
  - destruct (String.eqb code "LIMIT_FILE_SIZE");
      (eexists; split; [reflexivity|]; envelope).
  - eexists. split; [reflexivity|]. envelope.
Qed.

Lemma captionCatch_envelope {RT : Runtime} (now : string) (t : Thrown) (w : World) :
  exists res w',
    captionCatch (mkCaptionResponse false None None now) t w = (Returned res, w')
    /\ envelopeOk now res.
Proof.
  unfold captionCatch, bind, consoleError, emit, ret, envelopeOk.
  eexists. eexists. split; [reflexivity|]. envelope.
Qed.

Lemma postCaption_envelope {RT : Runtime}
    (processEnv : ProcessEnv) (now : string) (req : Request) (w : World) :
  exists res w',
    postCaption processEnv now req w = (Returned res, w') /\ envelopeOk now res.
Proof.
  unfold postCaption, tryCatch.
  destruct (isValid (validateFile (file req))); cbn [negb].
  2:{ eexists. eexists. split; [reflexivity|]. unfold envelopeOk. envelope. }
  destruct (file req) as [f|]; unfold bind at 1; cbn [fileOrTypeError ret throw];
    [|apply captionCatch_envelope].
  unfold bind at 1.
  destruct (getVisionService processEnv w) as [[vs|t] w1];
    [|apply captionCatch_envelope].
  unfold bind at 1.
  destruct (VisionService.generateCaption vs (buffer f) (mimetype f) w1)
    as [[cap|t] w2]; [|apply captionCatch_envelope].
  eexists. eexists. split; [reflexivity|]. unfold envelopeOk. envelope.
Qed.

Lemma postCustom_envelope {RT : Runtime}
    (processEnv : ProcessEnv) (now : string) (req : Request) (w : World) :
  exists res w',
    postCustom processEnv now req w = (Returned res, w') /\ envelopeOk now res.
Proof.
  unfold postCustom, tryCatch.
  destruct (isValid (validateFile (file req))); cbn [negb].
  2:{ eexists. eexists. split; [reflexivity|]. unfold envelopeOk. envelope. }
  destruct (falsy (prompt req)
            || (String.length (trim (narrowed (prompt req))) =? 0)%nat).
  { eexists. eexists. split; [reflexivity|]. unfold envelopeOk. envelope. }
  destruct (file req) as [f|]; unfold bind at 1; cbn [fileOrTypeError ret throw];
    [|apply captionCatch_envelope].
  unfold bind at 1.
  destruct (getVisionService processEnv w) as [[vs|t] w1];
    [|apply captionCatch_envelope].
  unfold bind at 1.
  destruct (VisionService.generateCaptionWithPrompt vs (buffer f) (mimetype f)
              (trim (narrowed (prompt req))) w1)
    as [[cap|t] w2]; [|apply captionCatch_envelope].
  eexists. eexists. split; [reflexivity|]. unfold envelopeOk. envelope.
Qed.

(** C9.  Every request to POST /api/caption and POST /api/caption/custom is
    answered, and so is every error given to the error middleware; the body
    is a response envelope with its [success] flag and the timestamp;
    [success] is true exactly when the status is 200; a caption is present
    only with [success:true] and an error only with [success:false]. *)
Theorem responses_are_well_formed_envelopes
    (RT : Runtime) (processEnv : ProcessEnv) (now : string)
    (form : Multipart) (w : World) :
  (exists res w',
      router processEnv now PostCaption form w = (Returned res, w')
      /\ envelopeOk now res)
  /\ (exists res w',
      router processEnv now PostCustom form w = (Returned res, w')
      /\ envelopeOk now res)
  /\ (forall error,
      exists res,
        errorMiddleware now error w = (Returned res, w) /\ envelopeOk now res).
Proof.
  split; [|split].
  - unfold router. destruct (uploadSingle form) as [e|req].
    + destruct (errorMiddleware_envelope now e w) as [res H]. eauto.
    + apply postCaption_envelope.
  - unfold router. destruct (uploadSingle form) as [e|req].
    + destruct (errorMiddleware_envelope now e w) as [res H]. eauto.
    + apply postCustom_envelope.
  - intros error. apply errorMiddleware_envelope.
Qed.

(** ** Configuration *)

(** [getVisionService] fails exactly when a required variable is missing. *)
Lemma getVisionService_missing {RT : Runtime} (processEnv : ProcessEnv) (w : World) :
  (configMissing processEnv ->
   getVisionService processEnv w
   = (Threw (ThrownError (newError
        "Missing required Azure OpenAI environment variables")), w))
  /\ (~ configMissing processEnv ->
      getVisionService processEnv w = (Returned (serviceOf processEnv), w)).
Proof.
  unfold getVisionService, configMissing.
  rewrite <- !falsy_iff.
  destruct (falsy (AZURE_OPENAI_API_KEY processEnv));
    destruct (falsy (AZURE_OPENAI_ENDPOINT processEnv));
    destruct (falsy (AZURE_OPENAI_MODEL_ID processEnv)); cbn [orb];
    split; intros H; try reflexivity; try (exfalso; tauto);
    try (exfalso; apply H; tauto).
  destruct H as [H|[H|H]]; discriminate.
Qed.


(** A caption request with a valid image and a complete configuration, to
    which the model answers at once with a content: status 200,
    [success:true] and the trimmed content as caption, which is empty exactly
    when the content is white space. *)
Lemma caption_request_succeeds {RT : Runtime}
    (processEnv : ProcessEnv) (now : string) (form : Multipart) (part : FilePart)
    (w : World) (response : ChatCompletion) (e' : Env) (c : string) :
  ~ configMissing processEnv ->
  imagePart form = Some part ->
  validImage part ->
  chatCompletionsCreate (VisionService.client (serviceOf processEnv))
    (VisionService.chatRequest (serviceOf processEnv) (partData part)
       (partMimetype part) VisionService.defaultPrompt 300) (env w)
  = (Returned response, e') ->
  VisionService.firstContent response = Some c ->
  c <> "" ->
  router processEnv now PostCaption form w
  = (Returned (mkResponse 200
       (CaptionJson (mkCaptionResponse true (Some (trim c)) None now))),
     mkWorld e' (trace w ++ [EvInvoke]))
  /\ (trim c = "" <-> WhiteSpaceOnly c).
Proof.
  intros Hcfg Hpart Hvalid Hcall Hc Hne. split; [|apply trim_empty_iff].
  destruct w as [e tr]. cbn [env trace] in *. unfold router.
  rewrite (uploadSingle_valid form part Hpart Hvalid).
  unfold postCaption, tryCatch. cbn [file].
  rewrite (validateFile_valid part Hvalid). cbn [isValid negb].
  unfold bind at 1. cbn [fileOrTypeError ret]. unfold bind at 1.
  rewrite (proj2 (getVisionService_missing processEnv (mkWorld e tr)) Hcfg).
  unfold bind at 1. cbn [buffer mimetype].
  rewrite (proj1 (generate_on_content (serviceOf processEnv) 2 (partData part)
                    (partMimetype part) "" e tr response e' c eq_refl Hc Hne) Hcall).
  reflexivity.
Qed.





(** * Further properties of the sources *)

Import More.

(** ** The retry wrapper: its trace *)

Lemma seq_shift_cons (a k : nat) : seq a (S k) = a :: seq (S a) k.
Proof. reflexivity. Qed.

(** From an attempt inside the loop on: the operation is invoked at least
    once and at most once per iteration left, every wait lies between two
    invocations, and the wait after attempt [i] is [baseDelay * 2^i]. *)
Lemma retryLoop_schedule {RT : Runtime} {T : Type}
    (this : VisionService.t) (operation : Operation T) :
  forall remaining attempt lastError w,
    attempt + remaining = VisionService.maxRetries this ->
    0 < remaining ->
    exists tr,
      trace (snd (VisionService.retryLoop this operation remaining attempt lastError w))
      = (trace w ++ tr)%list
      /\ 1 <= invocations tr <= remaining
      /\ sleeps tr
         = map (fun i => (VisionService.baseDelay this * 2 ^ Z.of_nat i)%Z)
             (seq attempt (invocations tr - 1)).
Proof.
  induction remaining as [|remaining IH]; intros attempt lastError [e tr0] Hinv Hpos;
    [lia|].
  destruct (operation e) as [[v|t] e'] eqn:Hop.
  - rewrite (retryLoop_returned this operation remaining attempt lastError e tr0 v e' Hop).
    exists [EvInvoke]. cbn. repeat split; lia.
  - destruct (VisionService.isRateLimit (toError t)
              && (Z.of_nat attempt <? Z.of_nat (VisionService.maxRetries this) - 1)%Z)
      eqn:Hc.
    + apply andb_true_iff in Hc. destruct Hc as [Hr Hlt]. apply Z.ltb_lt in Hlt.
      rewrite (retryLoop_retried this operation remaining attempt lastError
                 e tr0 t e' Hop Hr Hlt).
      match goal with
      | |- context [VisionService.retryLoop _ _ _ _ ?l ?w2] =>
          destruct (IH (S attempt) l w2) as [tr [Htr [[Hge Hle] Hsl]]]; [lia | lia |]
      end.
      rewrite Htr. cbn [trace]. rewrite <- app_assoc.
      eexists. split; [reflexivity|].
      rewrite invocations_app, sleeps_app. cbn [invocations sleeps app].
      split; [lia|].
      replace (1 + invocations tr - 1) with (S (invocations tr - 1)) by lia.
      rewrite seq_shift_cons. cbn [map]. rewrite Hsl. reflexivity.
    + rewrite (retryLoop_threw this operation remaining attempt lastError
                 e tr0 t e' Hop Hc).
      exists [EvInvoke]. cbn. repeat split; lia.
Qed.

(** X1.  For a service built by the constructor and any operation, what
    [withRetry] adds to the trace is one of three sequences: a single
    invocation; an invocation, the log line of the first retry, a wait of
    1000 ms and an invocation; or these followed by the log line of the
    second retry, a wait of 2000 ms and a third invocation.  So every wait
    lies between two invocations and is announced by its log line. *)
Theorem withRetry_trace_shapes
    (RT : Runtime) (T : Type) (config : AzureOpenAIConfig)
    (operation : Operation T) (w : World) :
  exists tr,
    trace (snd (VisionService.withRetry (VisionService.new config) operation w))
    = (trace w ++ tr)%list
    /\ (tr = [EvInvoke]
        \/ tr = [EvInvoke;
                 EvLog "Rate limited. Retrying in 1000ms (attempt 1/3)";
                 EvSleep 1000;
                 EvInvoke]
        \/ tr = [EvInvoke;
                 EvLog "Rate limited. Retrying in 1000ms (attempt 1/3)";
                 EvSleep 1000;
                 EvInvoke;
                 EvLog "Rate limited. Retrying in 2000ms (attempt 2/3)";
                 EvSleep 2000;
                 EvInvoke]).
Proof.
  destruct w as [e0 tr0]. unfold VisionService.withRetry.
  cbn [VisionService.maxRetries VisionService.new trace].
  set (this := VisionService.new config).
  destruct (operation e0) as [[v1|t1] e1] eqn:H1.
  { rewrite (retryLoop_returned this operation 2 0 None e0 tr0 v1 e1 H1).
    exists [EvInvoke]. split; [reflexivity | left; reflexivity]. }
  destruct (VisionService.isRateLimit (toError t1)) eqn:R1.
  2:{ rewrite (retryLoop_threw this operation 2 0 None e0 tr0 t1 e1 H1)
        by (rewrite R1; reflexivity).
      exists [EvInvoke]. split; [reflexivity | left; reflexivity]. }
  rewrite (retryLoop_retried this operation 2 0 None e0 tr0 t1 e1 H1 R1)
    by (cbn; lia).
  change (VisionService.baseDelay this * 2 ^ Z.of_nat 0)%Z with 1000%Z.
  destruct (operation (elapse 1000 e1)) as [[v2|t2] e2] eqn:H2.
  { rewrite (retryLoop_returned this operation 1 1 _ _ _ v2 e2 H2).
    cbn [snd trace]. rewrite <- app_assoc.
    eexists. split; [reflexivity | right; left; reflexivity]. }
  destruct (VisionService.isRateLimit (toError t2)) eqn:R2.
  2:{ rewrite (retryLoop_threw this operation 1 1 _ _ _ t2 e2 H2)
        by (rewrite R2; reflexivity).
      cbn [snd trace]. rewrite <- app_assoc.
      eexists. split; [reflexivity | right; left; reflexivity]. }
  rewrite (retryLoop_retried this operation 1 1 _ _ _ t2 e2 H2 R2) by (cbn; lia).
  change (VisionService.baseDelay this * 2 ^ Z.of_nat 1)%Z with 2000%Z.
  destruct (operation (elapse 2000 e2)) as [[v3|t3] e3] eqn:H3.
  { rewrite (retryLoop_returned this operation 0 2 _ _ _ v3 e3 H3).
    cbn [snd trace]. rewrite <- !app_assoc.
    eexists. split; [reflexivity | right; right; reflexivity]. }
  rewrite (retryLoop_threw this operation 0 2 _ _ _ t3 e3 H3)
    by apply andb_false_r.
  cbn [snd trace]. rewrite <- !app_assoc.
  eexists. split; [reflexivity | right; right; reflexivity].
Qed.

(** X2.  A service built by the constructor, whatever the operation does:
    at most three invocations, at most two waits, never a wait of 4000 ms,
    and at most 3000 ms waited in total. *)
Theorem service_retry_budget
    (RT : Runtime) (T : Type) (config : AzureOpenAIConfig)
    (operation : Operation T) (w : World) :
  exists tr,
    trace (snd (VisionService.withRetry (VisionService.new config) operation w))
    = (trace w ++ tr)%list
    /\ invocations tr <= 3
    /\ length (sleeps tr) <= 2
    /\ ~ In 4000%Z (sleeps tr)
    /\ (0 <= waited tr <= 3000)%Z.
Proof.
  destruct (retryLoop_schedule (VisionService.new config) operation 3 0 None w
              eq_refl ltac:(lia)) as [tr [Htr [[Hge Hle] Hsl]]].
  exists tr. split; [exact Htr|]. split; [exact Hle|].
  unfold waited. rewrite Hsl.
  destruct (invocations tr) as [|[|[|[|k]]]]; try lia; cbn;
    repeat split; try lia; intros H; repeat (destruct H as [H|H]; try discriminate H);
    contradiction.
Qed.

(** What the loop throws is the error of one of its invocations, unless it
    is left without any invocation. *)
Lemma retryLoop_throws_from {RT : Runtime} {T : Type}
    (this : VisionService.t) (operation : Operation T) :
  forall remaining attempt lastError w t w',
    VisionService.retryLoop this operation remaining attempt lastError w = (Threw t, w') ->
    (exists e0 t0 e1, operation e0 = (Threw t0, e1) /\ t = ThrownError (toError t0))
    \/ (remaining = 0
        /\ t = match lastError with
               | Some e => ThrownError e
               | None => ThrownValue "null"
               end).
Proof.
  induction remaining as [|remaining IH]; intros attempt lastError [e tr0] t w' H.
  - right. split; [reflexivity|].
    destruct lastError; cbn in H; injection H as <- _; reflexivity.
  - left. destruct (operation e) as [[v|t0] e'] eqn:Hop.
    + rewrite (retryLoop_returned this operation remaining attempt lastError
                 e tr0 v e' Hop) in H. discriminate.
    + destruct (VisionService.isRateLimit (toError t0)
                && (Z.of_nat attempt <? Z.of_nat (VisionService.maxRetries this) - 1)%Z)
        eqn:Hc.
      * apply andb_true_iff in Hc. destruct Hc as [Hr Hlt]. apply Z.ltb_lt in Hlt.
        rewrite (retryLoop_retried this operation remaining attempt lastError
                   e tr0 t0 e' Hop Hr Hlt) in H.
        apply IH in H. destruct H as [H|[_ ->]]; [exact H|].
        exists e, t0, e'. split; [exact Hop | reflexivity].
      * rewrite (retryLoop_threw this operation remaining attempt lastError
                   e tr0 t0 e' Hop Hc) in H.
        injection H as <- _. exists e, t0, e'. split; [exact Hop | reflexivity].
Qed.

(** X3.  When [withRetry] of a service with a positive number of attempts
    throws, it throws an [Error] object, and that object is the error of one
    of the invocations ([new Error(String(v))] for a thrown [v] that is not an
    [Error]): the [throw lastError] after the loop never throws [null]. *)
Theorem withRetry_throws_an_invocation_error
    (RT : Runtime) (T : Type) (this : VisionService.t)
    (operation : Operation T) (w : World) (t : Thrown) (w' : World) :
  0 < VisionService.maxRetries this ->
  VisionService.withRetry this operation w = (Threw t, w') ->
  exists e0 t0 e1, operation e0 = (Threw t0, e1) /\ t = ThrownError (toError t0).
Proof.
  intros Hpos H. unfold VisionService.withRetry in H.
  apply retryLoop_throws_from in H. destruct H as [H|[Hz _]]; [exact H | lia].
Qed.

Lemma withRetry_throws_an_invocation_error_witness :
  exists e0 t0 e1,
    Samples.throwingText e0 = (Threw t0, e1)
    /\ ThrownError (newError "socket hang up") = ThrownError (toError t0).
Proof.
  apply (withRetry_throws_an_invocation_error Samples.scripted string
           (VisionService.new Samples.config) Samples.throwingText
           (Samples.start []) (ThrownError (newError "socket hang up"))
           (@mkWorld Samples.scripted [] [EvInvoke])).
  - simpl. lia.
  - reflexivity.
Defined.

(** X4.  A rate limit followed by a success: the value is returned after one
    wait of 1000 ms and two invocations; two rate limits followed by a
    success: after waits of 1000 ms and 2000 ms and three invocations. *)
Theorem withRetry_recovers
    (RT : Runtime) (T : Type) (config : AzureOpenAIConfig)
    (operation : Operation T) (e0 : Env) (tr : list Event)
    (t1 : Thrown) (e1 : Env) :
  operation e0 = (Threw t1, e1) ->
  VisionService.isRateLimit (toError t1) = true ->
  (forall v e2,
      operation (elapse 1000 e1) = (Returned v, e2) ->
      VisionService.withRetry (VisionService.new config) operation (mkWorld e0 tr)
      = (Returned v,
         mkWorld e2
           (tr ++ [EvInvoke;
                   EvLog "Rate limited. Retrying in 1000ms (attempt 1/3)";
                   EvSleep 1000;
                   EvInvoke])))
  /\ (forall t2 e2 v e3,
      operation (elapse 1000 e1) = (Threw t2, e2) ->
      VisionService.isRateLimit (toError t2) = true ->
      operation (elapse 2000 e2) = (Returned v, e3) ->
      VisionService.withRetry (VisionService.new config) operation (mkWorld e0 tr)
      = (Returned v,
         mkWorld e3
           (tr ++ [EvInvoke;
                   EvLog "Rate limited. Retrying in 1000ms (attempt 1/3)";
                   EvSleep 1000;
                   EvInvoke;
                   EvLog "Rate limited. Retrying in 2000ms (attempt 2/3)";
                   EvSleep 2000;
                   EvInvoke]))).
Proof.
  intros H1 R1. unfold VisionService.withRetry.
  cbn [VisionService.maxRetries VisionService.new].
  rewrite (retryLoop_retried _ operation 2 0 None e0 tr t1 e1 H1 R1) by (cbn; lia).
  change (VisionService.baseDelay (VisionService.new config) * 2 ^ Z.of_nat 0)%Z
    with 1000%Z.
  split.
  - intros v e2 H2.
    rewrite (retryLoop_returned _ operation 1 1 _ _ _ v e2 H2).
    rewrite <- app_assoc. reflexivity.
  - intros t2 e2 v e3 H2 R2 H3.
    rewrite (retryLoop_retried _ operation 1 1 _ _ _ t2 e2 H2 R2) by (cbn; lia).
    change (VisionService.baseDelay (VisionService.new config) * 2 ^ Z.of_nat 1)%Z
      with 2000%Z.
    rewrite (retryLoop_returned _ operation 0 2 _ _ _ v e3 H3).
    rewrite <- !app_assoc. reflexivity.
Qed.

Lemma withRetry_recovers_witness :
  VisionService.withRetry (VisionService.new Samples.config) describeImage
    (Samples.start [rateLimited; Returned (Samples.completionOf "A cat.")])
  = (Returned "A cat.",
     @mkWorld Samples.scripted []
       [EvInvoke;
        EvLog "Rate limited. Retrying in 1000ms (attempt 1/3)";
        EvSleep 1000;
        EvInvoke]).
Proof.
  apply (proj1 (withRetry_recovers Samples.scripted string Samples.config
                  describeImage
                  [rateLimited; Returned (Samples.completionOf "A cat.")] []
                  (ThrownError Samples.tooManyRequests)
                  [Returned (Samples.completionOf "A cat.")]
                  eq_refl eq_refl)).
  reflexivity.
Defined.

(** ** The vision service: how failures are reported *)

(** X5.  When [generateCaption] of a service with a positive number of
    attempts throws, the retry wrapper has thrown an [Error] [cause]; the
    method logs it and throws a new plain [Error] whose message is chosen by
    the first marker found in the message of [cause], in the order [401],
    [404], [429]; without a marker the message of [cause] is kept behind the
    prefix [Failed to generate caption: ]. *)
Theorem generateCaption_failure_mapping
    (RT : Runtime) (this : VisionService.t)
    (imageBuffer : list Byte.byte) (mimeType : string)
    (w : World) (t : Thrown) (w' : World) :
  0 < VisionService.maxRetries this ->
  VisionService.generateCaption this imageBuffer mimeType w = (Threw t, w') ->
  exists cause w0 m,
    VisionService.withRetry this
      (VisionService.captionOperation this imageBuffer mimeType
         VisionService.defaultPrompt 300 "No caption generated from the AI model") w
    = (Threw (ThrownError cause), w0)
    /\ w' = mkWorld (env w0)
              (trace w0 ++ [EvConsoleError "Vision service error:" (ThrownError cause)])
    /\ t = ThrownError (newError m)
    /\ (includes (message cause) "401" = true ->
        m = "Invalid API key or unauthorized access")
    /\ (includes (message cause) "401" = false ->
        includes (message cause) "404" = true ->
        m = "Model deployment not found")
    /\ (includes (message cause) "401" = false ->
        includes (message cause) "404" = false ->
        includes (message cause) "429" = true ->
        m = VisionService.rateLimitedMessage)
    /\ (includes (message cause) "401" = false ->
        includes (message cause) "404" = false ->
        includes (message cause) "429" = false ->
        m = "Failed to generate caption: " ++ message cause).
Proof.
  intros Hpos. unfold VisionService.generateCaption, tryCatch.
  destruct (VisionService.withRetry this _ w) as [[v|t0] w0] eqn:Hrun;
    [discriminate|].
  pose proof Hrun as Hthrown. unfold VisionService.withRetry in Hthrown.
  apply retryLoop_throws_error in Hthrown.
  destruct Hthrown as [[cause ->]|[Hz _]]; [|lia].
  unfold bind, consoleError, emit, throw.
  destruct (includes (message cause) "401") eqn:H401;
    [|destruct (includes (message cause) "404") eqn:H404;
      [|destruct (includes (message cause) "429") eqn:H429]];
    intros H; injection H as <- <-;
    exists cause, w0; eexists;
    (split; [reflexivity|]); (split; [reflexivity|]); (split; [reflexivity|]);
    repeat split; intros; try reflexivity; try congruence.
Qed.

Lemma generateCaption_failure_mapping_witness :
  exists cause w0 m,
    VisionService.withRetry (VisionService.new Samples.config)
      (VisionService.captionOperation (VisionService.new Samples.config)
         Samples.image "image/jpeg"
         VisionService.defaultPrompt 300 "No caption generated from the AI model")
      (Samples.start [denied])
    = (Threw (ThrownError cause), w0)
    /\ @mkWorld Samples.scripted []
         [EvInvoke; EvConsoleError "Vision service error:"
                      (ThrownError Samples.unauthorized)]
       = mkWorld (env w0)
           (trace w0 ++ [EvConsoleError "Vision service error:" (ThrownError cause)])
    /\ ThrownError (newError "Invalid API key or unauthorized access")
       = ThrownError (newError m)
    /\ (includes (message cause) "401" = true ->
        m = "Invalid API key or unauthorized access")
    /\ (includes (message cause) "401" = false ->
        includes (message cause) "404" = true ->
        m = "Model deployment not found")
    /\ (includes (message cause) "401" = false ->
        includes (message cause) "404" = false ->
        includes (message cause) "429" = true ->
        m = VisionService.rateLimitedMessage)
    /\ (includes (message cause) "401" = false ->
        includes (message cause) "404" = false ->
        includes (message cause) "429" = false ->
        m = "Failed to generate caption: " ++ message cause).
Proof.
  apply (generateCaption_failure_mapping Samples.scripted
           (VisionService.new Samples.config) Samples.image "image/jpeg"
           (Samples.start [denied])).
  - simpl. lia.
  - reflexivity.
Defined.

(** X6.  When [generateCaptionWithPrompt] of a service with a positive number
    of attempts throws, it throws the [Error] of the retry wrapper itself,
    class and message unchanged (markers [401] and [404] are not looked for),
    unless its message holds [429], in which case a new plain [Error] with the
    rate-limit text is thrown. *)
Theorem generateCaptionWithPrompt_failure_mapping
    (RT : Runtime) (this : VisionService.t)
    (imageBuffer : list Byte.byte) (mimeType customPrompt : string)
    (w : World) (t : Thrown) (w' : World) :
  0 < VisionService.maxRetries this ->
  VisionService.generateCaptionWithPrompt this imageBuffer mimeType customPrompt w
  = (Threw t, w') ->
  exists cause w0,
    VisionService.withRetry this
      (VisionService.captionOperation this imageBuffer mimeType
         customPrompt 500 "No response generated from the AI model") w
    = (Threw (ThrownError cause), w0)
    /\ w' = mkWorld (env w0)
              (trace w0 ++ [EvConsoleError "Vision service error:" (ThrownError cause)])
    /\ t = ThrownError (if includes (message cause) "429"
                        then newError VisionService.rateLimitedMessage
                        else cause).
Proof.
  intros Hpos. unfold VisionService.generateCaptionWithPrompt, tryCatch.
  destruct (VisionService.withRetry this _ w) as [[v|t0] w0] eqn:Hrun;
    [discriminate|].
  pose proof Hrun as Hthrown. unfold VisionService.withRetry in Hthrown.
  apply retryLoop_throws_error in Hthrown.
  destruct Hthrown as [[cause ->]|[Hz _]]; [|lia].
  unfold bind, consoleError, emit, throw.
  destruct (includes (message cause) "429") eqn:H429;
    intros H; injection H as <- <-; exists cause, w0; rewrite H429;
    repeat split; reflexivity.
Qed.

Lemma generateCaptionWithPrompt_failure_mapping_witness :
  exists cause w0,
    VisionService.withRetry (VisionService.new Samples.config)
      (VisionService.captionOperation (VisionService.new Samples.config)
         Samples.image "image/jpeg"
         "What colour is the cat?" 500 "No response generated from the AI model")
      (Samples.start [denied])
    = (Threw (ThrownError cause), w0)
    /\ @mkWorld Samples.scripted []
         [EvInvoke; EvConsoleError "Vision service error:"
                      (ThrownError Samples.unauthorized)]
       = mkWorld (env w0)
           (trace w0 ++ [EvConsoleError "Vision service error:" (ThrownError cause)])
    /\ ThrownError Samples.unauthorized
       = ThrownError (if includes (message cause) "429"
                      then newError VisionService.rateLimitedMessage
                      else cause).
Proof.
  apply (generateCaptionWithPrompt_failure_mapping Samples.scripted
           (VisionService.new Samples.config) Samples.image "image/jpeg"
           "What colour is the cat?" (Samples.start [denied])).
  - simpl. lia.
  - reflexivity.
Defined.

(** ** The POST handlers, case by case *)

Lemma missing_iff (processEnv : ProcessEnv) :
  missing processEnv = true <-> configMissing processEnv.
Proof.
  unfold missing, configMissing. rewrite !orb_true_iff, !falsy_iff. tauto.
Qed.

Lemma getVisionService_cases {RT : Runtime} (processEnv : ProcessEnv) (w : World) :
  getVisionService processEnv w
  = if missing processEnv
    then (Threw (ThrownError (newError
            "Missing required Azure OpenAI environment variables")), w)
    else (Returned (serviceOf processEnv), w).
Proof.
  unfold getVisionService, missing. destruct (_ || _ || _); reflexivity.
Qed.

(** The handler of POST /api/caption, branch by branch. *)
Lemma postCaption_cases {RT : Runtime}
    (processEnv : ProcessEnv) (now : string) (req : Request) (w : World) :
  postCaption processEnv now req w
  = if negb (isValid (validateFile (file req))) then
      (Returned (mkResponse 400
         (CaptionJson (mkCaptionResponse false None
                         (validationError (validateFile (file req))) now))), w)
    else
      match file req with
      | None =>
          caught now (ThrownError (newError
            "Cannot read properties of undefined (reading 'buffer')")) w
      | Some f =>
          if missing processEnv then
            caught now (ThrownError (newError
              "Missing required Azure OpenAI environment variables")) w
          else
            match VisionService.generateCaption (serviceOf processEnv)
                    (buffer f) (mimetype f) w with
            | (Returned caption, w') => (Returned (captioned now caption), w')
            | (Threw t, w') => caught now t w'
            end
      end.
Proof.
  unfold postCaption, tryCatch.
  destruct (negb (isValid (validateFile (file req)))); [reflexivity|].
  destruct (file req) as [f|]; [|reflexivity].
  unfold bind at 1. cbn [fileOrTypeError ret]. unfold bind at 1.
  rewrite getVisionService_cases.
  destruct (missing processEnv); [reflexivity|].
  unfold bind at 1.
  destruct (VisionService.generateCaption _ _ _ w) as [[caption|t] w'];
    reflexivity.
Qed.

(** The handler of POST /api/caption/custom, branch by branch. *)
Lemma postCustom_cases {RT : Runtime}
    (processEnv : ProcessEnv) (now : string) (req : Request) (w : World) :
  postCustom processEnv now req w
  = if negb (isValid (validateFile (file req))) then
      (Returned (mkResponse 400
         (CaptionJson (mkCaptionResponse false None
                         (validationError (validateFile (file req))) now))), w)
    else if falsy (prompt req)
            || (String.length (trim (narrowed (prompt req))) =? 0)%nat then
      (Returned (mkResponse 400 (errorBody now "Custom prompt is required")), w)
    else
      match file req with
      | None =>
          caught now (ThrownError (newError
            "Cannot read properties of undefined (reading 'buffer')")) w
      | Some f =>
          if missing processEnv then
            caught now (ThrownError (newError
              "Missing required Azure OpenAI environment variables")) w
          else
            match VisionService.generateCaptionWithPrompt (serviceOf processEnv)
                    (buffer f) (mimetype f) (trim (narrowed (prompt req))) w with
            | (Returned caption, w') => (Returned (captioned now caption), w')
            | (Threw t, w') => caught now t w'
            end
      end.
Proof.
  unfold postCustom, tryCatch.
  destruct (negb (isValid (validateFile (file req)))); [reflexivity|].
  destruct (falsy (prompt req) || _); [reflexivity|].
  destruct (file req) as [f|]; [|reflexivity].
  unfold bind at 1. cbn [fileOrTypeError ret]. unfold bind at 1.
  rewrite getVisionService_cases.
  destruct (missing processEnv); [reflexivity|].
  unfold bind at 1.
  destruct (VisionService.generateCaptionWithPrompt _ _ _ _ w) as [[caption|t] w'];
    reflexivity.
Qed.

(** The error middleware, branch by branch. *)
Lemma errorMiddleware_cases {RT : Runtime} (now : string) (error : JsError) (w : World) :
  errorMiddleware now error w
  = (Returned (mkResponse (if isMulterError error then 400 else 500)
       (errorBody now
          match errorClass error with
          | MulterError code =>
              if String.eqb code "LIMIT_FILE_SIZE"
              then "File size exceeds the 10MB limit"
              else "Upload error: " ++ message error
          | _ => messageOr error "An unexpected error occurred"
          end)), w).
Proof.
  unfold errorMiddleware, isMulterError.
  destruct (errorClass error) as [|code|st]; try reflexivity.
  destruct (String.eqb code "LIMIT_FILE_SIZE"); reflexivity.
Qed.

(** X7.  The error middleware answers every error without any other effect:
    status 400 when the error is a [MulterError] and 500 otherwise, always
    with [success:false] and an error text that is not empty (an empty message
    of a plain error is replaced by [An unexpected error occurred]). *)
Theorem errorMiddleware_answers
    (RT : Runtime) (now : string) (error : JsError) (w : World) :
  exists msg,
    errorMiddleware now error w
    = (Returned (mkResponse (if isMulterError error then 400 else 500)
                   (errorBody now msg)), w)
    /\ msg <> "".
Proof.
  rewrite errorMiddleware_cases. eexists. split; [reflexivity|].
  destruct (errorClass error) as [|code|st].
  - unfold messageOr. destruct (String.eqb_spec (message error) "");
      [discriminate | assumption].
  - destruct (String.eqb code "LIMIT_FILE_SIZE"); discriminate.
  - unfold messageOr. destruct (String.eqb_spec (message error) "");
      [discriminate | assumption].
Qed.

(** ** The router as a whole *)

Ltac router_cases :=
  unfold router;
  repeat match goal with
         | |- context [match ?r with PostCaption => _ | PostCustom => _ | GetHealth => _ end] =>
             destruct r
         | |- context [match uploadSingle ?f with _ => _ end] =>
             destruct (uploadSingle f) eqn:?
         end;
  rewrite ?postCaption_cases, ?postCustom_cases, ?errorMiddleware_cases.

(** X8.  Every request to the router is answered, never thrown back, and the
    status is 200, 400 or 500. *)
Theorem router_status_codes
    (RT : Runtime) (processEnv : ProcessEnv) (now : string)
    (route : Route) (form : Multipart) (w : World) :
  exists res w',
    router processEnv now route form w = (Returned res, w')
    /\ (statusCode res = 200 \/ statusCode res = 400 \/ statusCode res = 500)%Z.
Proof.
  router_cases;
    repeat match goal with
           | |- context [if ?b then _ else _] => destruct b
           | |- context [match file ?r with _ => _ end] => destruct (file r)
           | |- context [match ?g with (_, _) => _ end] =>
               let r := fresh "r" in let w' := fresh "w'" in
               destruct g as [[r|r] w']
           end;
    unfold caught, getHealth, ret;
    eexists; eexists; (split; [reflexivity|]); cbn; tauto.
Qed.

(** X9.  An answer with status 400 costs nothing: the world is returned as
    it was, so no call of the vision API was made and nothing was logged. *)
Theorem bad_request_has_no_effect
    (RT : Runtime) (processEnv : ProcessEnv) (now : string)
    (route : Route) (form : Multipart) (w : World)
    (res : HttpResponse) (w' : World) :
  router processEnv now route form w = (Returned res, w') ->
  statusCode res = 400%Z ->
  w' = w.
Proof.
  router_cases;
    repeat match goal with
           | |- context [if ?b then _ else _] => destruct b
           | |- context [match file ?r with _ => _ end] => destruct (file r)
           | |- context [match ?g with (_, _) => _ end] =>
               let r := fresh "r" in let w' := fresh "w'" in
               destruct g as [[r|r] w']
           end;
    unfold caught, getHealth, ret;
    intros H Hs; injection H as <- <-; cbn in Hs; try discriminate Hs; reflexivity.
Qed.

Lemma bad_request_has_no_effect_witness :
  router Samples.configured Samples.noon PostCustom Samples.blankPromptForm
    (Samples.start [])
  = (Returned (mkResponse 400 (errorBody Samples.noon "Custom prompt is required")),
     Samples.start [])
  /\ Samples.start [] = Samples.start [].
Proof.
  split; [reflexivity|].
  apply (bad_request_has_no_effect Samples.scripted Samples.configured
           Samples.noon PostCustom Samples.blankPromptForm (Samples.start [])
           (mkResponse 400 (errorBody Samples.noon "Custom prompt is required"))
           (Samples.start [])); reflexivity.
Defined.

Lemma waited_app (a b : list Event) : waited (a ++ b) = (waited a + waited b)%Z.
Proof.
  unfold waited. rewrite sleeps_app.
  induction (sleeps a) as [|x l IH]; cbn; [reflexivity | rewrite IH; lia].
Qed.

(** The retry wrapper of a service built by the constructor: what it adds to
    the trace. *)
Lemma withRetry_budget {RT : Runtime} {T : Type}
    (config : AzureOpenAIConfig) (operation : Operation T) (w : World) :
  exists tr,
    trace (snd (VisionService.withRetry (VisionService.new config) operation w))
    = (trace w ++ tr)%list
    /\ 1 <= invocations tr <= 3
    /\ (0 <= waited tr <= 3000)%Z.
Proof.
  destruct (retryLoop_schedule (VisionService.new config) operation 3 0 None w
              eq_refl ltac:(lia)) as [tr [Htr [[Hge Hle] Hsl]]].
  exists tr. split; [exact Htr|]. split; [lia|].
  unfold waited. rewrite Hsl.
  destruct (invocations tr) as [|[|[|[|k]]]]; try lia; cbn; lia.
Qed.

(** The two methods add to the trace of the retry wrapper at most one line
    of console output. *)
Lemma generate_budget {RT : Runtime} (config : AzureOpenAIConfig)
    (imageBuffer : list Byte.byte) (mimeType customPrompt : string) (w : World) :
  (exists tr,
      trace (snd (VisionService.generateCaption (VisionService.new config)
                    imageBuffer mimeType w))
      = (trace w ++ tr)%list
      /\ 1 <= invocations tr <= 3 /\ (0 <= waited tr <= 3000)%Z)
  /\ (exists tr,
      trace (snd (VisionService.generateCaptionWithPrompt (VisionService.new config)
                    imageBuffer mimeType customPrompt w))
      = (trace w ++ tr)%list
      /\ 1 <= invocations tr <= 3 /\ (0 <= waited tr <= 3000)%Z).
Proof.
  split.
  - unfold VisionService.generateCaption, tryCatch.
    match goal with
    | |- context [VisionService.withRetry ?s ?op w] =>
        destruct (withRetry_budget config op w) as [tr [Htr [Hinv Hw]]];
        destruct (VisionService.withRetry s op w) as [[v|t] w0]
    end; cbn [snd] in *.
    + exists tr. auto.
    + unfold bind, consoleError, emit, throw.
      exists (tr ++ [EvConsoleError "Vision service error:" t])%list.
      rewrite invocations_app, waited_app, app_assoc, <- Htr. cbn [invocations].
      change (waited [EvConsoleError "Vision service error:" t]) with 0%Z.
      split; [|lia].
      destruct t as [err|repr]; [|reflexivity].
      destruct (includes (message err) "401"); [reflexivity|].
      destruct (includes (message err) "404"); [reflexivity|].
      destruct (includes (message err) "429"); reflexivity.
  - unfold VisionService.generateCaptionWithPrompt, tryCatch.
    match goal with
    | |- context [VisionService.withRetry ?s ?op w] =>
        destruct (withRetry_budget config op w) as [tr [Htr [Hinv Hw]]];
        destruct (VisionService.withRetry s op w) as [[v|t] w0]
    end; cbn [snd] in *.
    + exists tr. auto.
    + unfold bind, consoleError, emit, throw.
      exists (tr ++ [EvConsoleError "Vision service error:" t])%list.
      rewrite invocations_app, waited_app, app_assoc, <- Htr. cbn [invocations].
      change (waited [EvConsoleError "Vision service error:" t]) with 0%Z.
      split; [|lia].
      destruct t as [err|repr]; [|reflexivity].
      destruct (includes (message err) "429"); reflexivity.
Qed.

(** X10.  Whatever the request and whatever the remote service does, one
    request to the router makes at most three calls of the vision API and
    waits at most 3000 ms; the trace only grows. *)
Theorem request_call_budget
    (RT : Runtime) (processEnv : ProcessEnv) (now : string)
    (route : Route) (form : Multipart) (w : World) :
  exists tr,
    trace (snd (router processEnv now route form w)) = (trace w ++ tr)%list
    /\ invocations tr <= 3
    /\ (0 <= waited tr <= 3000)%Z.
Proof.
  assert (Hnil : exists tr, trace w = (trace w ++ tr)%list
                   /\ invocations tr <= 3 /\ (0 <= waited tr <= 3000)%Z).
  { exists []. rewrite app_nil_r. cbn. repeat split; lia. }
  assert (Hone : forall t, exists tr,
             (trace w ++ [EvConsoleError "Caption generation error:" t])%list
             = (trace w ++ tr)%list
             /\ invocations tr <= 3 /\ (0 <= waited tr <= 3000)%Z).
  { intros t. eexists. split; [reflexivity|]. cbn. repeat split; lia. }
  router_cases;
    repeat match goal with
           | |- context [if ?b then _ else _] => destruct b
           | |- context [match file ?r with _ => _ end] => destruct (file r)
           end;
    unfold caught, getHealth, ret; cbn [snd trace]; auto.
  - unfold serviceOf.
    match goal with
    | |- context [VisionService.generateCaption (VisionService.new ?c) ?b ?m w] =>
        destruct (proj1 (generate_budget c b m "" w)) as [tr [Htr [Hinv Hw]]];
        destruct (VisionService.generateCaption _ b m w) as [[cap|t] w']
    end; cbn [snd] in *.
    + exists tr. repeat split; try lia; assumption.
    + exists (tr ++ [EvConsoleError "Caption generation error:" t])%list.
      cbn [trace]. rewrite Htr, <- app_assoc, invocations_app, waited_app.
      split; [reflexivity|]. cbn. lia.
  - unfold serviceOf.
    match goal with
    | |- context [VisionService.generateCaptionWithPrompt (VisionService.new ?c) ?b ?m ?q w] =>
        destruct (proj2 (generate_budget c b m q w)) as [tr [Htr [Hinv Hw]]];
        destruct (VisionService.generateCaptionWithPrompt _ b m q w) as [[cap|t] w']
    end; cbn [snd] in *.
    + exists tr. repeat split; try lia; assumption.
    + exists (tr ++ [EvConsoleError "Caption generation error:" t])%list.
      cbn [trace]. rewrite Htr, <- app_assoc, invocations_app, waited_app.
      split; [reflexivity|]. cbn. lia.
Qed.

(** X11.  An answer with status 200 of a POST route carries a caption that
    is the trimmed, non-empty content of an answer of the model: the
    configuration was complete, and the caption has no white space at either
    end. *)
Theorem ok_answer_carries_model_content
    (RT : Runtime) (processEnv : ProcessEnv) (now : string)
    (route : Route) (form : Multipart) (w : World)
    (res : HttpResponse) (w' : World) :
  route <> GetHealth ->
  router processEnv now route form w = (Returned res, w') ->
  statusCode res = 200%Z ->
  exists c request e1 answer e2,
    res = captioned now (trim c)
    /\ c <> ""
    /\ Trimmed c (trim c)
    /\ ~ configMissing processEnv
    /\ chatCompletionsCreate (VisionService.client (serviceOf processEnv)) request e1
       = (Returned answer, e2)
    /\ VisionService.firstContent answer = Some c.
Proof.
  intros Hroute. destruct route; [| |contradiction]; unfold router;
    destruct (uploadSingle form) as [err|req];
    rewrite ?postCaption_cases, ?postCustom_cases, ?errorMiddleware_cases;
    try (destruct (isMulterError err); intros H Hs; injection H as <- _;
         discriminate Hs).
  - destruct (negb (isValid (validateFile (file req))));
      [intros H Hs; injection H as <- _; discriminate Hs|].
    destruct (file req) as [f|];
      [|intros H Hs; injection H as <- _; discriminate Hs].
    destruct (missing processEnv) eqn:Hmiss;
      [intros H Hs; injection H as <- _; discriminate Hs|].
    destruct (VisionService.generateCaption _ _ _ w) as [[cap|t] w0] eqn:Hgen;
      [|intros H Hs; injection H as <- _; discriminate Hs].
    intros H _. injection H as <- <-.
    destruct (proj1 (generate_returns_content _ _ _ "" _ _ _) Hgen)
      as [e1 [answer [e2 [c [Hcall [Hc [Hne ->]]]]]]].
    exists c. eexists. exists e1, answer, e2.
    split; [reflexivity|]. split; [exact Hne|]. split; [apply trim_Trimmed|].
    split; [rewrite <- missing_iff; congruence|].
    split; [exact Hcall | exact Hc].
  - destruct (negb (isValid (validateFile (file req))));
      [intros H Hs; injection H as <- _; discriminate Hs|].
    destruct (falsy (prompt req) || _);
      [intros H Hs; injection H as <- _; discriminate Hs|].
    destruct (file req) as [f|];
      [|intros H Hs; injection H as <- _; discriminate Hs].
    destruct (missing processEnv) eqn:Hmiss;
      [intros H Hs; injection H as <- _; discriminate Hs|].
    destruct (VisionService.generateCaptionWithPrompt _ _ _ _ w)
      as [[cap|t] w0] eqn:Hgen;
      [|intros H Hs; injection H as <- _; discriminate Hs].
    intros H _. injection H as <- <-.
    destruct (proj2 (generate_returns_content _ _ _ _ _ _ _) Hgen)
      as [e1 [answer [e2 [c [Hcall [Hc [Hne ->]]]]]]].
    exists c. eexists. exists e1, answer, e2.
    split; [reflexivity|]. split; [exact Hne|]. split; [apply trim_Trimmed|].
    split; [rewrite <- missing_iff; congruence|].
    split; [exact Hcall | exact Hc].
Qed.

Lemma ok_answer_carries_model_content_witness :
  exists c request e1 answer e2,
    captioned Samples.noon "A cat." = captioned Samples.noon (trim c)
    /\ c <> ""
    /\ Trimmed c (trim c)
    /\ ~ configMissing Samples.configured
    /\ @chatCompletionsCreate Samples.scripted
         (VisionService.client (serviceOf Samples.configured)) request e1
       = (Returned answer, e2)
    /\ VisionService.firstContent answer = Some c.
Proof.
  apply (ok_answer_carries_model_content Samples.scripted Samples.configured
           Samples.noon PostCaption Samples.jpegForm
           (Samples.start [Returned (Samples.completionOf " A cat.")])
           (captioned Samples.noon "A cat.")
           (@mkWorld Samples.scripted [] [EvInvoke])).
  - discriminate.
  - reflexivity.
  - reflexivity.
Defined.

Lemma blank_test_trim (v : option string) :
  falsy v || (String.length (trim (narrowed v)) =? 0)%nat
  = (String.length (trim (narrowed v)) =? 0)%nat.
Proof.
  destruct v as [s|]; [|reflexivity]. cbn [falsy narrowed].
  destruct (String.eqb_spec s "") as [->|]; reflexivity.
Qed.

(** X12.  POST /api/caption/custom reads the prompt through [trim] only: two
    forms with the same file whose prompts are equal once trimmed (a missing
    prompt counting as the empty one) get the same answer and leave the same
    world. *)
Theorem custom_prompt_matters_up_to_trim
    (RT : Runtime) (processEnv : ProcessEnv) (now : string)
    (form1 form2 : Multipart) (w : World) :
  imagePart form1 = imagePart form2 ->
  trim (narrowed (promptField form1)) = trim (narrowed (promptField form2)) ->
  router processEnv now PostCustom form1 w = router processEnv now PostCustom form2 w.
Proof.
  intros Himg Htrim. unfold router, uploadSingle. rewrite <- Himg.
  destruct (imagePart form1) as [part|].
  - destruct (fileFilter (partMimetype part)); [|reflexivity].
    destruct (fileSize <? _)%N; [reflexivity|].
    rewrite !postCustom_cases. cbn [file prompt].
    rewrite !blank_test_trim, Htrim. reflexivity.
  - rewrite !postCustom_cases. cbn [file prompt]. reflexivity.
Qed.

Lemma custom_prompt_matters_up_to_trim_witness :
  router Samples.configured Samples.noon PostCustom paddedPromptForm
    (Samples.start [Returned (Samples.completionOf "Grey.")])
  = router Samples.configured Samples.noon PostCustom Samples.promptForm
      (Samples.start [Returned (Samples.completionOf "Grey.")]).
Proof.
  apply (custom_prompt_matters_up_to_trim Samples.scripted Samples.configured
           Samples.noon paddedPromptForm Samples.promptForm
           (Samples.start [Returned (Samples.completionOf "Grey.")]));
    reflexivity.
Defined.

(** Three failures in a row, the first two of them rate limits: the third
    one is thrown, whatever it is. *)
Lemma withRetry_three_failures {RT : Runtime} {T : Type}
    (config : AzureOpenAIConfig) (operation : Operation T)
    (e0 : Env) (tr : list Event) (t1 t2 t3 : Thrown) (e1 e2 e3 : Env) :
  operation e0 = (Threw t1, e1) ->
  VisionService.isRateLimit (toError t1) = true ->
  operation (elapse 1000 e1) = (Threw t2, e2) ->
  VisionService.isRateLimit (toError t2) = true ->
  operation (elapse 2000 e2) = (Threw t3, e3) ->
  VisionService.withRetry (VisionService.new config) operation (mkWorld e0 tr)
  = (Threw (ThrownError (toError t3)),
     mkWorld e3
       (tr ++ [EvInvoke;
               EvLog "Rate limited. Retrying in 1000ms (attempt 1/3)";
               EvSleep 1000;
               EvInvoke;
               EvLog "Rate limited. Retrying in 2000ms (attempt 2/3)";
               EvSleep 2000;
               EvInvoke])).
Proof.
  intros H1 R1 H2 R2 H3. unfold VisionService.withRetry.
  cbn [VisionService.maxRetries VisionService.new].
  rewrite (retryLoop_retried _ operation 2 0 None e0 tr t1 e1 H1 R1) by (cbn; lia).
  change (VisionService.baseDelay (VisionService.new config) * 2 ^ Z.of_nat 0)%Z
    with 1000%Z.
  rewrite (retryLoop_retried _ operation 1 1 _ _ _ t2 e2 H2 R2) by (cbn; lia).
  change (VisionService.baseDelay (VisionService.new config) * 2 ^ Z.of_nat 1)%Z
    with 2000%Z.
  rewrite (retryLoop_threw _ operation 0 2 _ _ _ t3 e3 H3)
    by apply andb_false_r.
  rewrite <- !app_assoc. reflexivity.
Qed.

(** Under a remote service that always answers 429, the retry wrapper of
    either method gives up after three calls. *)
Lemma withRetry_always_429 {RT : Runtime}
    (config : AzureOpenAIConfig) (imageBuffer : list Byte.byte)
    (mimeType prompt : string) (maxTokens : Z) (msg : string) (w : World) :
  alwaysTooManyRequests ->
  exists err w0,
    VisionService.withRetry (VisionService.new config)
      (VisionService.captionOperation (VisionService.new config)
         imageBuffer mimeType prompt maxTokens msg) w
    = (Threw (ThrownError err), w0)
    /\ includes (message err) "429" = true
    /\ includes (message err) "401" = false
    /\ includes (message err) "404" = false
    /\ trace w0
       = (trace w ++
            [EvInvoke;
             EvLog "Rate limited. Retrying in 1000ms (attempt 1/3)";
             EvSleep 1000;
             EvInvoke;
             EvLog "Rate limited. Retrying in 2000ms (attempt 2/3)";
             EvSleep 2000;
             EvInvoke])%list.
Proof.
  intros Hall. destruct w as [e0 tr].
  set (this := VisionService.new config).
  set (op := VisionService.captionOperation this imageBuffer mimeType prompt
               maxTokens msg).
  assert (Hop : forall e, exists err e',
             op e = (Threw (ThrownError err), e')
             /\ includes (message err) "429" = true
             /\ includes (message err) "401" = false
             /\ includes (message err) "404" = false).
  { intros e. unfold op, VisionService.captionOperation.
    destruct (Hall (VisionService.client this)
                (VisionService.chatRequest this imageBuffer mimeType prompt maxTokens) e)
      as [err [e' [Hcall Hrest]]].
    rewrite Hcall. exists err, e'. split; [reflexivity | exact Hrest]. }
  assert (Hrl : forall err, includes (message err) "429" = true ->
                            VisionService.isRateLimit (toError (ThrownError err)) = true).
  { intros err H. cbn [toError]. unfold VisionService.isRateLimit. rewrite H.
    reflexivity. }
  destruct (Hop e0) as [err1 [e1 [H1 [A1 _]]]].
  destruct (Hop (elapse 1000 e1)) as [err2 [e2 [H2 [A2 _]]]].
  destruct (Hop (elapse 2000 e2)) as [err3 [e3 [H3 [A3 [B3 C3]]]]].
  exists err3. eexists. split.
  - exact (withRetry_three_failures config op e0 tr _ _ _ e1 e2 e3
             H1 (Hrl _ A1) H2 (Hrl _ A2) H3).
  - cbn [trace toError]. auto.
Qed.

(** X13.  When the remote service answers every call with a 429 error, a
    valid request to either POST route, with a complete configuration, is
    answered with status 500 and the rate-limit text, after exactly three
    calls and waits of 1000 ms and 2000 ms. *)
Theorem persistent_rate_limit_answers_500
    (RT : Runtime) (processEnv : ProcessEnv) (now : string)
    (form : Multipart) (part : FilePart) (w : World) :
  alwaysTooManyRequests ->
  ~ configMissing processEnv ->
  imagePart form = Some part ->
  validImage part ->
  (exists w',
      router processEnv now PostCaption form w
      = (Returned (mkResponse 500 (errorBody now VisionService.rateLimitedMessage)), w')
      /\ exists tr, trace w' = (trace w ++ tr)%list
                    /\ invocations tr = 3 /\ sleeps tr = [1000; 2000]%Z)
  /\ (forall p, promptField form = Some p -> trim p <> "" ->
      exists w',
        router processEnv now PostCustom form w
        = (Returned (mkResponse 500 (errorBody now VisionService.rateLimitedMessage)), w')
        /\ exists tr, trace w' = (trace w ++ tr)%list
                      /\ invocations tr = 3 /\ sleeps tr = [1000; 2000]%Z).
Proof.
  intros Hall Hcfg Hpart Hvalid.
  assert (Hmiss : missing processEnv = false).
  { destruct (missing processEnv) eqn:E; [|reflexivity].
    exfalso. apply Hcfg. apply missing_iff. exact E. }
  unfold router. rewrite (uploadSingle_valid form part Hpart Hvalid).
  rewrite postCaption_cases, postCustom_cases. cbn [file prompt].
  rewrite (validateFile_valid part Hvalid). cbn [isValid negb]. rewrite Hmiss.
  cbn [buffer mimetype]. unfold serviceOf.
  split.
  - unfold VisionService.generateCaption, tryCatch.
    match goal with
    | |- context [VisionService.withRetry (VisionService.new ?c)
                    (VisionService.captionOperation _ ?b ?m ?p ?k ?s) w] =>
        destruct (withRetry_always_429 c b m p k s w Hall)
          as [err [w0 [Hrun [A [B [C Htr]]]]]]
    end.
    rewrite Hrun. unfold bind, consoleError, emit, throw. rewrite B, C, A.
    eexists. split; [reflexivity|].
    cbn [trace]. rewrite Htr, <- !app_assoc. eexists. split; [reflexivity|].
    split; reflexivity.
  - intros p Hp Hne. rewrite Hp. cbn [falsy narrowed].
    assert (E1 : String.eqb p "" = false).
    { apply String.eqb_neq. intros ->. apply Hne. reflexivity. }
    assert (E2 : (String.length (trim p) =? 0)%nat = false).
    { apply Nat.eqb_neq. destruct (trim p); [congruence | discriminate]. }
    rewrite E1, E2. cbn [orb].
    unfold VisionService.generateCaptionWithPrompt, tryCatch.
    match goal with
    | |- context [VisionService.withRetry (VisionService.new ?c)
                    (VisionService.captionOperation _ ?b ?m ?q ?k ?s) w] =>
        destruct (withRetry_always_429 c b m q k s w Hall)
          as [err [w0 [Hrun [A [B [C Htr]]]]]]
    end.
    rewrite Hrun. unfold bind, consoleError, emit, throw. rewrite A.
    eexists. split; [reflexivity|].
    cbn [trace]. rewrite Htr, <- !app_assoc. eexists. split; [reflexivity|].
    split; reflexivity.
Qed.

Lemma overloaded_alwaysTooManyRequests : @alwaysTooManyRequests overloaded.
Proof.
  intros client request e. exists Samples.tooManyRequests, e.
  repeat split; reflexivity.
Qed.

Lemma configured_complete : ~ configMissing Samples.configured.
Proof. intros [[H|H]|[[H|H]|[H|H]]]; discriminate H. Qed.

Lemma persistent_rate_limit_answers_500_witness :
  exists w',
    @router overloaded Samples.configured Samples.noon PostCaption Samples.jpegForm
      (@mkWorld overloaded tt [])
    = (Returned (mkResponse 500
                   (errorBody Samples.noon VisionService.rateLimitedMessage)), w')
    /\ exists tr, trace w' = ([] ++ tr)%list
                  /\ invocations tr = 3 /\ sleeps tr = [1000; 2000]%Z.
Proof.
  apply (proj1 (persistent_rate_limit_answers_500 overloaded Samples.configured
                  Samples.noon Samples.jpegForm Samples.jpeg
                  (@mkWorld overloaded tt [])
                  overloaded_alwaysTooManyRequests configured_complete
                  eq_refl jpeg_validImage)).
Defined.

(** ** Validation of the upload *)

(** X14.  [validateFile] accepts a file exactly when it is present, not empty
    and of a type on the allow-list, and it gives an error text exactly when
    it refuses; a missing file is reported as such, and an empty file is
    reported as empty whatever its type, the type being looked at last. *)
Theorem validateFile_spec (file : option MulterFile) :
  (isValid (validateFile file) = true
   <-> exists f, file = Some f /\ buffer f <> []
                 /\ In (mimetype f) SUPPORTED_IMAGE_TYPES)
  /\ (validationError (validateFile file) = None
      <-> isValid (validateFile file) = true)
  /\ (validationError (validateFile file) = Some "No image file provided"
      <-> file = None)
  /\ (validationError (validateFile file) = Some "Empty file uploaded"
      <-> exists f, file = Some f /\ buffer f = []).
Proof.
  unfold validateFile. destruct file as [f|].
  2:{ cbn. repeat split; try discriminate; try tauto.
      - intros [f [H _]]. discriminate H.
      - intros [f [H _]]. discriminate H. }
  destruct (buffer f) as [|b bs] eqn:Hb; cbn [length Nat.eqb].
  - cbn. repeat split; try discriminate; try tauto.
    + intros [g [Hg [Hne _]]]. injection Hg as <-. congruence.
    + intros _. exists f. auto.
  - destruct (supported (mimetype f)) eqn:Hs; cbn.
    + repeat split; try discriminate; try tauto.
      * intros _. exists f. repeat split; [congruence|].
        apply supported_iff. exact Hs.
      * intros [g [Hg Hnil]]. injection Hg as <-. congruence.
    + repeat split; try discriminate; try tauto.
      * intros [g [Hg [_ Hin]]]. injection Hg as <-.
        apply supported_iff in Hin. congruence.
      * intros [g [Hg Hnil]]. injection Hg as <-. congruence.
Qed.

(** X15.  Behind the upload middleware the type test of [validateFile] cannot
    fail: a file that reaches the handler has a type on the allow-list and at
    most [fileSize] bytes, so the only validation errors a request can get are
    [No image file provided] and [Empty file uploaded]; the prompt reaches the
    handler as it was sent. *)
Theorem upload_leaves_two_validation_errors (form : Multipart) (req : Request) :
  uploadSingle form = UploadDone req ->
  (forall f, file req = Some f ->
     supported (mimetype f) = true
     /\ (N.of_nat (length (buffer f)) <= fileSize)%N)
  /\ (validationError (validateFile (file req)) = None
      \/ validationError (validateFile (file req)) = Some "No image file provided"
      \/ validationError (validateFile (file req)) = Some "Empty file uploaded")
  /\ prompt req = promptField form.
Proof.
  unfold uploadSingle, fileFilter. destruct (imagePart form) as [part|].
  - destruct (supported (partMimetype part)) eqn:Hs; [|discriminate].
    destruct (N.ltb_spec fileSize (N.of_nat (length (partData part)))) as [Hgt|Hle];
      [discriminate|].
    intros Hreq. injection Hreq as <-. cbn [file prompt]. split; [|split].
    + intros f Hf. injection Hf as <-. cbn. auto.
    + unfold validateFile. cbn [buffer mimetype].
      destruct (length (partData part) =? 0)%nat; [cbn; auto|].
      rewrite Hs. cbn. auto.
    + reflexivity.
  - intros Hreq. injection Hreq as <-. cbn. split; [discriminate|]. auto.
Qed.

Lemma upload_leaves_two_validation_errors_witness :
  (forall f,
     file (mkRequest (Some (mkFile Samples.image "image/jpeg")) None) = Some f ->
     supported (mimetype f) = true
     /\ (N.of_nat (length (buffer f)) <= fileSize)%N)
  /\ (validationError (validateFile
        (file (mkRequest (Some (mkFile Samples.image "image/jpeg")) None))) = None
      \/ validationError (validateFile
           (file (mkRequest (Some (mkFile Samples.image "image/jpeg")) None)))
         = Some "No image file provided"
      \/ validationError (validateFile
           (file (mkRequest (Some (mkFile Samples.image "image/jpeg")) None)))
         = Some "Empty file uploaded")
  /\ prompt (mkRequest (Some (mkFile Samples.image "image/jpeg")) None)
     = promptField Samples.jpegForm.
Proof.
  apply (upload_leaves_two_validation_errors Samples.jpegForm
           (mkRequest (Some (mkFile Samples.image "image/jpeg")) None)).
  reflexivity.
Defined.

(** ** Configuration *)

(** X16.  [getVisionService] has no effect on the world; it throws exactly
    when one of the three variables is unset or set to the empty string, and
    otherwise returns a service with three attempts, a base delay of 1000 ms,
    the API version [2024-02-15-preview] and the key, endpoint and deployment
    read from the environment, none of them empty. *)
Theorem getVisionService_spec
    (RT : Runtime) (processEnv : ProcessEnv) (w : World) :
  (getVisionService processEnv w
   = (Threw (ThrownError (newError
        "Missing required Azure OpenAI environment variables")), w)
   <-> configMissing processEnv)
  /\ ((exists vs, getVisionService processEnv w = (Returned vs, w))
      <-> ~ configMissing processEnv)
  /\ (forall vs w',
      getVisionService processEnv w = (Returned vs, w') ->
      w' = w
      /\ VisionService.maxRetries vs = 3
      /\ VisionService.baseDelay vs = 1000%Z
      /\ VisionService.client vs
         = mkClient (narrowed (AZURE_OPENAI_API_KEY processEnv))
             (narrowed (AZURE_OPENAI_ENDPOINT processEnv)) "2024-02-15-preview"
      /\ VisionService.modelId vs = narrowed (AZURE_OPENAI_MODEL_ID processEnv)
      /\ clientApiKey (VisionService.client vs) <> ""
      /\ clientEndpoint (VisionService.client vs) <> ""
      /\ VisionService.modelId vs <> "").
Proof.
  rewrite getVisionService_cases, <- missing_iff.
  destruct (missing processEnv) eqn:Hm.
  - split; [tauto|]. split.
    + split; [intros [vs H]; discriminate H | congruence].
    + intros vs w' H. discriminate H.
  - split; [split; [discriminate | congruence]|]. split.
    + split; [congruence | intros _; eexists; reflexivity].
    + intros vs w' H. injection H as <- <-.
      unfold missing in Hm. apply orb_false_iff in Hm. destruct Hm as [Hm H3].
      apply orb_false_iff in Hm. destruct Hm as [H1 H2].
      assert (Hne : forall v, falsy v = false -> narrowed v <> "").
      { intros [s|] Hv; cbn in *; [|discriminate].
        apply String.eqb_neq. exact Hv. }
      cbn. repeat split; auto.
Qed.

Lemma getVisionService_spec_witness :
  Samples.start [] = Samples.start []
  /\ VisionService.maxRetries (serviceOf Samples.configured) = 3
  /\ VisionService.baseDelay (serviceOf Samples.configured) = 1000%Z
  /\ VisionService.client (serviceOf Samples.configured)
     = mkClient "key" "https://example.openai.azure.com/" "2024-02-15-preview"
  /\ VisionService.modelId (serviceOf Samples.configured) = "gpt-4o"
  /\ clientApiKey (VisionService.client (serviceOf Samples.configured)) <> ""
  /\ clientEndpoint (VisionService.client (serviceOf Samples.configured)) <> ""
  /\ VisionService.modelId (serviceOf Samples.configured) <> "".
Proof.
  apply (proj2 (proj2 (getVisionService_spec Samples.scripted Samples.configured
                         (Samples.start [])))
           (serviceOf Samples.configured) (Samples.start [])).
  reflexivity.
Defined.

Lemma lookup_required (processEnv : ProcessEnv) :
  map (Server.lookup processEnv) Server.requiredEnvVars
  = [AZURE_OPENAI_API_KEY processEnv; AZURE_OPENAI_ENDPOINT processEnv;
     AZURE_OPENAI_MODEL_ID processEnv].
Proof. reflexivity. Qed.

(** X17.  The check made when the server starts and [getVisionService] agree
    on what a complete configuration is: the start-up code logs its success
    line exactly when [getVisionService] returns a service, and otherwise
    warns, in two lines, the first of which names the variables that are
    unset or empty, and only those, in the order key, endpoint, deployment. *)
Theorem startup_check_matches_getVisionService
    (RT : Runtime) (processEnv : ProcessEnv) (w : World) :
  (Server.validateEnvironment processEnv
   = [EvLog "✅ All required environment variables are configured."]
   <-> exists vs, getVisionService processEnv w = (Returned vs, w))
  /\ (Server.validateEnvironment processEnv
      = [EvWarn ("⚠️  Warning: Missing environment variables: "
                 ++ join ", " (Server.missingVars processEnv));
         EvWarn "   Please check your .env file configuration."]
      <-> exists t, getVisionService processEnv w = (Threw t, w))
  /\ (forall name,
      In name (Server.missingVars processEnv)
      <-> In name Server.requiredEnvVars
          /\ unset (Server.lookup processEnv name)).
Proof.
  assert (Hlen : (0 <? length (Server.missingVars processEnv))%nat
                 = missing processEnv).
  { unfold Server.missingVars, missing. cbn [filter Server.requiredEnvVars].
    change (Server.lookup processEnv "AZURE_OPENAI_API_KEY")
      with (AZURE_OPENAI_API_KEY processEnv).
    change (Server.lookup processEnv "AZURE_OPENAI_ENDPOINT")
      with (AZURE_OPENAI_ENDPOINT processEnv).
    change (Server.lookup processEnv "AZURE_OPENAI_MODEL_ID")
      with (AZURE_OPENAI_MODEL_ID processEnv).
    destruct (falsy (AZURE_OPENAI_API_KEY processEnv));
      destruct (falsy (AZURE_OPENAI_ENDPOINT processEnv));
      destruct (falsy (AZURE_OPENAI_MODEL_ID processEnv)); reflexivity. }
  unfold Server.validateEnvironment. rewrite Hlen, getVisionService_cases.
  destruct (missing processEnv); split; [| split | | split].
  - split; [discriminate | intros [vs H]; discriminate H].
  - split; [eauto | reflexivity].
  - intros name. unfold Server.missingVars. rewrite filter_In, falsy_iff. tauto.
  - split; [eauto | reflexivity].
  - split; [discriminate | intros [t H]; discriminate H].
  - intros name. unfold Server.missingVars. rewrite filter_In, falsy_iff. tauto.
Qed.

(** ** Error texts *)

Lemma refused_file_has_a_text (file : option MulterFile) :
  isValid (validateFile file) = false ->
  exists msg, validationError (validateFile file) = Some msg /\ msg <> "".
Proof.
  unfold validateFile. destruct file as [f|].
  - destruct (length (buffer f) =? 0)%nat;
      [intros _; eexists; split; [reflexivity | discriminate]|].
    destruct (supported (mimetype f)); [discriminate|].
    intros _. eexists. split; [reflexivity | discriminate].
  - intros _. eexists. split; [reflexivity | discriminate].
Qed.

(** X18.  An answer of POST /api/caption that is not a success carries an
    error text that is not empty, whatever went wrong.  POST
    /api/caption/custom gives no such guarantee: it passes the message of the
    error of the API client through unchanged, so an error with an empty
    message is answered with the empty error text. *)
Theorem caption_error_text_is_never_empty
    (RT : Runtime) (processEnv : ProcessEnv) (now : string)
    (form : Multipart) (w : World) :
  (forall res w',
      router processEnv now PostCaption form w = (Returned res, w') ->
      statusCode res <> 200%Z ->
      exists msg, json res = errorBody now msg /\ msg <> "")
  /\ fst (router Samples.configured now PostCustom Samples.promptForm
            (Samples.start [silentFailure]))
     = Returned (mkResponse 500 (errorBody now "")).
Proof.
  split; [|reflexivity].
  intros res w'. unfold router. destruct (uploadSingle form) as [err|req].
  - destruct (errorMiddleware_answers RT now err w) as [msg [Hrun Hne]].
    rewrite Hrun. intros H _. injection H as <- _. exists msg. auto.
  - rewrite postCaption_cases.
    destruct (isValid (validateFile (file req))) eqn:Hv; cbn [negb].
    2:{ destruct (refused_file_has_a_text _ Hv) as [msg [Hm Hne]]. rewrite Hm.
        intros H _. injection H as <- _. exists msg. auto. }
    destruct (file req) as [f|];
      [|intros H _; injection H as <- _; eexists; split;
        [reflexivity | discriminate]].
    destruct (missing processEnv);
      [intros H _; injection H as <- _; eexists; split;
       [reflexivity | discriminate]|].
    unfold serviceOf.
    destruct (VisionService.generateCaption _ _ _ w) as [[cap|t] w0] eqn:Hgen.
    + intros H Hs. injection H as <- _. exfalso. apply Hs. reflexivity.
    + apply generateCaption_failure_described in Hgen.
      destruct Hgen as [m [-> Hm]].
      intros H _. injection H as <- _. exists m. split; [reflexivity|].
      destruct Hm as [->|[->|[->|[cause ->]]]]; discriminate.
Qed.

Lemma caption_error_text_is_never_empty_witness :
  exists msg,
    json (mkResponse 500
            (errorBody Samples.noon
               "Missing required Azure OpenAI environment variables"))
    = errorBody Samples.noon msg
    /\ msg <> "".
Proof.
  apply (proj1 (caption_error_text_is_never_empty Samples.scripted
                  Samples.unconfigured Samples.noon Samples.jpegForm
                  (Samples.start []))
           (mkResponse 500
              (errorBody Samples.noon
                 "Missing required Azure OpenAI environment variables"))
           (@mkWorld Samples.scripted []
              [EvConsoleError "Caption generation error:"
                 (ThrownError (newError
                    "Missing required Azure OpenAI environment variables"))])).
  - reflexivity.
  - discriminate.
Defined.

(** ** The health route and the upload filter *)

(** X19.  The formats the health route advertises are exactly the MIME types
    the upload filter accepts, and exactly those whose files [validateFile]
    does not refuse for their type. *)
Theorem health_advertises_the_accepted_types
    (RT : Runtime) (processEnv : ProcessEnv) (now : string)
    (form : Multipart) (w : World) (mime : string) :
  exists h,
    router processEnv now GetHealth form w
    = (Returned (mkResponse 200 (HealthJson h)), w)
    /\ (In mime (supportedFormats h) <-> fileFilter mime = Accept)
    /\ (In mime (supportedFormats h)
        <-> forall b bs, isValid (validateFile (Some (mkFile (b :: bs) mime))) = true).
Proof.
  eexists. split; [reflexivity|]. cbn [supportedFormats].
  rewrite <- supported_iff. unfold fileFilter, validateFile.
  cbn [buffer mimetype length Nat.eqb].
  destruct (supported mime); cbn; split; split; try reflexivity; try discriminate;
    auto.
  intros H. exact (H Byte.x00 []).
Qed.
